(** * Todo REST backend: handlers, schema and store

    A shallow embedding of the Express controller ([createTodo],
    [getAllTodos], [getTodoById], [updateTodo], [deleteTodo]), of the
    [todoSchema] declaration it relies on, and of the router that maps HTTP
    verbs onto the handlers.

    Conventions of the embedding.
    - A JavaScript string is a [string]; each character stands for one code
      unit below 256, so [String.length] is the JavaScript [length].
    - A field of a request body carries a value of the type the schema
      declares for it ([String] or [Boolean]); a field that is [undefined]
      is [None].  Members of the body other than the four schema fields are
      kept, uninterpreted, in [b_rest].  A query parameter is given at most
      once, so its value is a string.  For the update, [RawBody] and
      [Raw.updateTodo] also cover a value that the cast to the field's type
      refuses.
    - The collection is a finite map from [_id] to document; identifiers are
      issued from a counter and an insert under a key in use is refused.
    - [error.errors] lists the failing paths in schema order when a
      document is validated and in the reverse order when an update is, one
      message per path (the first validator of the path that fails).
    - Everything the handlers obtain from their environment is an explicit
      input: the two clock readings taken while a document is written and
      whether the storage call succeeds ([Env]).
    - The identifier syntax of the storage system is a parameter
      ([castObjectId]). *)

From stdpp Require Import gmap strings list sorting pretty.

Local Open Scope string_scope.
Local Open Scope Z_scope.

(** ** JavaScript strings *)

Module Js.

(** The double quote character, for messages that contain it. *)
Definition dq : string := String (Ascii.ascii_of_nat 34) EmptyString.

(** Code units below 256 that [String.prototype.trim] removes:
    TAB, LF, VT, FF, CR, SP and NBSP. *)
Definition is_ws (c : Ascii.ascii) : bool :=
  bool_decide (Ascii.nat_of_ascii c ∈ [9; 10; 11; 12; 13; 32; 160]%nat).

Fixpoint trimStart (s : string) : string :=
  match s with
  | EmptyString => EmptyString
  | String c s' => if is_ws c then trimStart s' else s
  end.

Fixpoint trimEnd (s : string) : string :=
  match s with
  | EmptyString => EmptyString
  | String c s' =>
      match trimEnd s' with
      | EmptyString => if is_ws c then EmptyString else String c EmptyString
      | r => String c r
      end
  end.

(** [s.trim()] *)
Definition trim (s : string) : string := trimEnd (trimStart s).

(** [xs.join(sep)] *)
Fixpoint join (sep : string) (xs : list string) : string :=
  match xs with
  | [] => EmptyString
  | [x] => x
  | x :: rest => x +:+ sep +:+ join sep rest
  end.

End Js.

(** ** Values handed to [res.json] *)

(** [ObjectId]s are opaque to the handlers; the store issues them from a
    counter, so an identifier is never issued twice. *)
Definition ObjectId := N.

#[local] Set Warnings "-register-all".

Inductive JsVal :=
| JNull
| JBool (b : bool)
| JNum (n : nat)
| JStr (s : string)
| JDate (ms : Z)
| JObjectId (o : ObjectId)
| JArr (xs : list JsVal)
| JObj (members : list (string * JsVal)).

(** Member access [o.k]; [None] is [undefined]. *)
Fixpoint member (k : string) (ms : list (string * JsVal)) : option JsVal :=
  match ms with
  | [] => None
  | (k', v) :: rest => if String.eqb k k' then Some v else member k rest
  end.

(** ** The Todo schema ([todoSchema]) *)

Record Todo := mkTodo {
  _id : ObjectId;
  title : string;
  description : string;
  status : bool;
  priority : string;
  createdAt : Z;
  updatedAt : Z;
}.

(** An object holding any of the four client-settable fields: the argument
    of [Todo.create] and the [updates] object of [updateTodo]. *)
Record Fields := mkFields {
  f_title : option string;
  f_description : option string;
  f_status : option bool;
  f_priority : option string;
}.

Module Schema.

(** A validator is a check together with the message reported when the check
    fails; a path reports the first validator that fails. *)
Definition Validator (A : Type) : Type := (A -> bool) * string.

Fixpoint doValidate {A} (vs : list (Validator A)) (v : A) : option string :=
  match vs with
  | [] => None
  | (check, msg) :: rest => if check v then doValidate rest v else Some msg
  end.

(** [required: [true, "Title is required"]]: a string passes when it is
    present and not empty. *)
Definition required : Validator (option string) :=
  (fun v => match v with
            | Some s => negb (Nat.eqb (String.length s) 0)
            | None => false
            end,
   "Title is required").

(** [minlength: [3, "Title must be at least 3 characters long"]] *)
Definition minlength : Validator (option string) :=
  (fun v => match v with
            | Some s => Nat.leb 3 (String.length s)
            | None => true
            end,
   "Title must be at least 3 characters long").

Definition enum_values : list string := ["low"; "medium"; "high"].

(** [enum: { values: ["low", "medium", "high"], message: ... }] *)
Definition enum : Validator string :=
  (fun v => bool_decide (v ∈ enum_values),
   "Priority must be one of " +:+ Js.dq +:+ "low" +:+ Js.dq +:+ ", "
     +:+ Js.dq +:+ "medium" +:+ Js.dq +:+ ", or "
     +:+ Js.dq +:+ "high" +:+ Js.dq).

Definition title_validators : list (Validator (option string)) :=
  [required; minlength].

Definition priority_validators : list (Validator string) := [enum].

Definition description_default : string := EmptyString.
Definition status_default : bool := false.
Definition priority_default : string := "medium".

(** The setter [trim: true] of [title] and [description]. *)
Definition trim_setter (v : option string) : option string := Js.trim <$> v.

(** The entry of [error.errors] for one path. *)
Definition path_errors {A} (path : string) (vs : list (Validator A)) (v : A)
  : list (string * string) :=
  match doValidate vs v with
  | Some msg => [(path, msg)]
  | None => []
  end.

End Schema.

(** ** The store and the environment of a request *)

(** The [todos] collection, keyed by [_id], and the counter from which the
    next [_id] is issued. *)
Record Db := mkDb {
  docs : gmap ObjectId Todo;
  next_id : ObjectId;
}.

Definition empty_db : Db := {| docs := ∅; next_id := 0%N |}.

Record Env := mkEnv {
  (** [Date.now()], read when the [createdAt] default is applied *)
  date_now : Z;
  (** the reading the [timestamps] option writes into [updatedAt] *)
  timestamp_now : Z;
  (** whether the storage call of this request goes through *)
  storage_up : bool;
}.

(** The filter object of [getAllTodos]; [None] is a key never assigned. *)
Record Filter := mkFilter {
  flt_status : option bool;
  flt_priority : option string;
}.

(** Commands sent to the storage system. *)
Inductive StorageCall :=
| InsertOne (d : Todo)
| FindMany (f : Filter)
| FindOne (i : ObjectId)
| FindOneAndUpdate (i : ObjectId) (u : Fields)
| FindOneAndDelete (i : ObjectId).

Inductive MongooseError :=
| ValidationError (errors : list (string * string))
| CastError
| StorageError.

(** The settled state of an awaited promise. *)
Inductive Settled (A : Type) :=
| Resolved (a : A)
| Rejected (e : MongooseError).
Arguments Resolved {A} a.
Arguments Rejected {A} e.

(** What an awaited model call leaves behind: its settled promise, the
    store, and the commands it sent. *)
Definition Await (A : Type) : Type := Settled A * Db * list StorageCall.

(** ** The model ([mongoose.model("Todo", todoSchema)]) *)

(** [Todo.create(o)]: setters and defaults are applied, the document is
    validated, and only a valid document is sent to storage. *)
Definition Todo_create (env : Env) (db : Db) (o : Fields) : Await Todo :=
  let t := Schema.trim_setter (f_title o) in
  let p := default Schema.priority_default (f_priority o) in
  let errors :=
    (Schema.path_errors "title" Schema.title_validators t
       ++ Schema.path_errors "priority" Schema.priority_validators p)%list in
  match errors with
  | _ :: _ => (Rejected (ValidationError errors), db, [])
  | [] =>
      let doc :=
        {| _id := next_id db;
           title := default EmptyString t;
           description :=
             default Schema.description_default
                     (Schema.trim_setter (f_description o));
           status := default Schema.status_default (f_status o);
           priority := p;
           createdAt := date_now env;
           updatedAt := timestamp_now env |} in
      if storage_up env && bool_decide (docs db !! next_id db = None)
      then (Resolved doc,
            {| docs := <[next_id db := doc]> (docs db);
               next_id := (next_id db + 1)%N |},
            [InsertOne doc])
      else (Rejected StorageError, db, [InsertOne doc])
  end.

Definition matches (f : Filter) (d : Todo) : bool :=
  match flt_status f with
  | Some b => bool_decide (status d = b)
  | None => true
  end
  &&
  match flt_priority f with
  | Some p => bool_decide (priority d = p)
  | None => true
  end.

(** The order of [sort({ createdAt: -1 })]. *)
Definition newest_first (a b : Todo) : Prop := createdAt b <= createdAt a.

#[global] Instance newest_first_dec : RelDecision newest_first.
Proof. intros a b. unfold newest_first. apply _. Defined.

(** [Todo.find(filter).sort({ createdAt: -1 })] *)
Definition Todo_find_sort (env : Env) (db : Db) (f : Filter)
  : Await (list Todo) :=
  if storage_up env
  then (Resolved
          (merge_sort newest_first
             (filter (λ d, matches f d) (map_to_list (docs db)).*2)),
        db, [FindMany f])
  else (Rejected StorageError, db, [FindMany f]).

(** The object [updates] after the setters have run. *)
Definition cast_update (u : Fields) : Fields :=
  {| f_title := Schema.trim_setter (f_title u);
     f_description := Schema.trim_setter (f_description u);
     f_status := f_status u;
     f_priority := f_priority u |}.

(** Update validators ([runValidators: true]) look at the paths present in
    the update and at nothing else.  The cast of the update reverses the
    order of its keys, so the error of [priority] comes before the error of
    [title]. *)
Definition update_errors (u : Fields) : list (string * string) :=
  (match f_priority u with
   | Some p => Schema.path_errors "priority" Schema.priority_validators p
   | None => []
   end
   ++
   match f_title u with
   | Some t => Schema.path_errors "title" Schema.title_validators (Some t)
   | None => []
   end)%list.

(** [$set] of the supplied paths, and the [updatedAt] of the [timestamps]
    option. *)
Definition apply_update (now : Z) (u : Fields) (d : Todo) : Todo :=
  {| _id := _id d;
     title := default (title d) (f_title u);
     description := default (description d) (f_description u);
     status := default (status d) (f_status u);
     priority := default (priority d) (f_priority u);
     createdAt := createdAt d;
     updatedAt := now |}.

(** ** Requests and responses *)

(** [req.body] after JSON parsing: the four schema fields, each at the type
    the schema declares ([None] when the member is absent), and whatever
    other members the client sent. *)
Record ReqBody := mkBody {
  b_title : option string;
  b_description : option string;
  b_status : option bool;
  b_priority : option string;
  b_rest : list (string * JsVal);
}.

(** [req.query]: the two parameters the handler reads. *)
Record Query := mkQuery {
  q_status : option string;
  q_priority : option string;
}.

(** What was written to [res]: [res.status(c).json(v)] has a body,
    [res.status(c).send()] has none. *)
Record Response := mkResponse {
  statusCode : Z;
  body : option JsVal;
}.

Definition json (code : Z) (v : JsVal) : Response :=
  {| statusCode := code; body := Some v |}.

Definition send (code : Z) : Response :=
  {| statusCode := code; body := None |}.

(** The [toJSON] option of the schema: no version key, [_id] renamed [id]. *)
Definition toJSON (d : Todo) : JsVal :=
  JObj [("title", JStr (title d));
        ("description", JStr (description d));
        ("status", JBool (status d));
        ("priority", JStr (priority d));
        ("createdAt", JDate (createdAt d));
        ("updatedAt", JDate (updatedAt d));
        ("id", JObjectId (_id d))].

(** [response(success, message, data)] *)
Definition response (success : bool) (message : string) (data : JsVal)
  : JsVal :=
  JObj [("success", JBool success); ("message", JStr message); ("data", data)].

(** [Object.values(error.errors).map((e) => e.message)] *)
Definition messages (errors : list (string * string)) : list string :=
  errors.*2.

(** [Object.keys(updates)] *)
Definition Object_keys (u : Fields) : list string :=
  (match f_title u with Some _ => ["title"] | None => [] end
   ++ match f_description u with Some _ => ["description"] | None => [] end
   ++ match f_status u with Some _ => ["status"] | None => [] end
   ++ match f_priority u with Some _ => ["priority"] | None => [] end)%list.

(** The result of running a handler: the response, the store afterwards and
    the storage commands sent on the way. *)
Record Outcome := mkOutcome {
  res : Response;
  db_after : Db;
  calls : list StorageCall;
}.

Section Controller.

(** The identifier syntax of the storage system: [castObjectId id] is the
    [ObjectId] a string denotes, if it denotes one. *)
Variable castObjectId : string -> option ObjectId.

(** [Todo.findById(id)] *)
Definition Todo_findById (env : Env) (db : Db) (id : string)
  : Await (option Todo) :=
  match castObjectId id with
  | None => (Rejected CastError, db, [])
  | Some i =>
      if storage_up env
      then (Resolved (docs db !! i), db, [FindOne i])
      else (Rejected StorageError, db, [FindOne i])
  end.

(** [Todo.findByIdAndUpdate(id, updates, { new: true, runValidators: true })]
    on an update whose values are at the types of the schema, so that the
    cast of the values cannot fail; [Raw.Todo_findByIdAndUpdate] below is
    the call on any update. *)
Definition Todo_findByIdAndUpdate
    (env : Env) (db : Db) (id : string) (updates : Fields)
  : Await (option Todo) :=
  match castObjectId id with
  | None => (Rejected CastError, db, [])
  | Some i =>
      let u := cast_update updates in
      match update_errors u with
      | (_ :: _) as errors => (Rejected (ValidationError errors), db, [])
      | [] =>
          if storage_up env
          then match docs db !! i with
               | Some d =>
                   let d' := apply_update (timestamp_now env) u d in
                   (Resolved (Some d'),
                    {| docs := <[i := d']> (docs db); next_id := next_id db |},
                    [FindOneAndUpdate i u])
               | None => (Resolved None, db, [FindOneAndUpdate i u])
               end
          else (Rejected StorageError, db, [FindOneAndUpdate i u])
      end
  end.

(** [Todo.findByIdAndDelete(id)] *)
Definition Todo_findByIdAndDelete (env : Env) (db : Db) (id : string)
  : Await (option Todo) :=
  match castObjectId id with
  | None => (Rejected CastError, db, [])
  | Some i =>
      if storage_up env
      then match docs db !! i with
           | Some d =>
               (Resolved (Some d),
                {| docs := delete i (docs db); next_id := next_id db |},
                [FindOneAndDelete i])
           | None => (Resolved None, db, [FindOneAndDelete i])
           end
      else (Rejected StorageError, db, [FindOneAndDelete i])
  end.

Definition isValidObjectId (id : string) : bool :=
  bool_decide (is_Some (castObjectId id)).

Definition invalid_id_message (id : string) : string :=
  Js.dq +:+ id +:+ Js.dq +:+ " is not a valid Todo ID".

(** POST /api/todos *)
Definition createTodo (b : ReqBody) (env : Env) (db : Db) : Outcome :=
  let title := b_title b in
  let description := b_description b in
  let status := b_status b in
  let priority := b_priority b in
  match Todo_create env db (mkFields title description status priority) with
  | (Resolved todo, db', cs) =>
      mkOutcome
        (json 201 (response true "Todo created successfully" (toJSON todo)))
        db' cs
  | (Rejected (ValidationError errors), db', cs) =>
      mkOutcome
        (json 400 (response false (Js.join ". " (messages errors)) JNull))
        db' cs
  | (Rejected _, db', cs) =>
      mkOutcome
        (json 500 (response false "Server error while creating todo" JNull))
        db' cs
  end.

(** GET /api/todos *)
Definition getAllTodos (q : Query) (env : Env) (db : Db) : Outcome :=
  let filter :=
    {| flt_status :=
         match q_status q with
         | Some s => Some (String.eqb s "true")
         | None => None
         end;
       flt_priority :=
         match q_priority q with
         | Some p => Some p
         | None => None
         end |} in
  match Todo_find_sort env db filter with
  | (Resolved todos, db', cs) =>
      mkOutcome
        (json 200
           (response true
              (pretty (length todos) +:+ " todo(s) retrieved successfully")
              (JArr (toJSON <$> todos))))
        db' cs
  | (Rejected _, db', cs) =>
      mkOutcome
        (json 500 (response false "Server error while retrieving todos" JNull))
        db' cs
  end.

(** GET /api/todos/:id *)
Definition getTodoById (id : string) (env : Env) (db : Db) : Outcome :=
  if negb (isValidObjectId id)
  then mkOutcome (json 400 (response false (invalid_id_message id) JNull))
                 db []
  else
    match Todo_findById env db id with
    | (Resolved None, db', cs) =>
        mkOutcome (json 404 (response false "Todo not found" JNull)) db' cs
    | (Resolved (Some todo), db', cs) =>
        mkOutcome
          (json 200 (response true "Todo retrieved successfully" (toJSON todo)))
          db' cs
    | (Rejected _, db', cs) =>
        mkOutcome
          (json 500 (response false "Server error while retrieving todo" JNull))
          db' cs
    end.

(** PATCH /api/todos/:id *)
Definition updateTodo (id : string) (b : ReqBody) (env : Env) (db : Db)
  : Outcome :=
  if negb (isValidObjectId id)
  then mkOutcome (json 400 (response false (invalid_id_message id) JNull))
                 db []
  else
    let title := b_title b in
    let description := b_description b in
    let status := b_status b in
    let priority := b_priority b in
    let updates :=
      {| f_title := match title with Some v => Some v | None => None end;
         f_description :=
           match description with Some v => Some v | None => None end;
         f_status := match status with Some v => Some v | None => None end;
         f_priority :=
           match priority with Some v => Some v | None => None end |} in
    if Nat.eqb (length (Object_keys updates)) 0
    then mkOutcome
           (json 400 (response false "No valid fields provided for update" JNull))
           db []
    else
      match Todo_findByIdAndUpdate env db id updates with
      | (Resolved None, db', cs) =>
          mkOutcome (json 404 (response false "Todo not found" JNull)) db' cs
      | (Resolved (Some todo), db', cs) =>
          mkOutcome
            (json 200 (response true "Todo updated successfully" (toJSON todo)))
            db' cs
      | (Rejected (ValidationError errors), db', cs) =>
          mkOutcome
            (json 400 (response false (Js.join ". " (messages errors)) JNull))
            db' cs
      | (Rejected _, db', cs) =>
          mkOutcome
            (json 500 (response false "Server error while updating todo" JNull))
            db' cs
      end.

(** DELETE /api/todos/:id *)
Definition deleteTodo (id : string) (env : Env) (db : Db) : Outcome :=
  if negb (isValidObjectId id)
  then mkOutcome (json 400 (response false (invalid_id_message id) JNull))
                 db []
  else
    match Todo_findByIdAndDelete env db id with
    | (Resolved None, db', cs) =>
        mkOutcome (json 404 (response false "Todo not found" JNull)) db' cs
    | (Resolved (Some _), db', cs) => mkOutcome (send 204) db' cs
    | (Rejected _, db', cs) =>
        mkOutcome
          (json 500 (response false "Server error while deleting todo" JNull))
          db' cs
    end.

(** ** The router ([todoRoutes.js]) *)

Inductive Request :=
| POST_todos (b : ReqBody)
| GET_todos (q : Query)
| GET_todo (id : string)
| PATCH_todo (id : string) (b : ReqBody)
| DELETE_todo (id : string).

(** The validation middlewares of the router only call [next()]. *)
Definition router (r : Request) : Env -> Db -> Outcome :=
  match r with
  | POST_todos b => createTodo b
  | GET_todos q => getAllTodos q
  | GET_todo id => getTodoById id
  | PATCH_todo id b => updateTodo id b
  | DELETE_todo id => deleteTodo id
  end.

(** The store after a sequence of requests, each with its environment. *)
Fixpoint run (rs : list (Request * Env)) (db : Db) : Db :=
  match rs with
  | [] => db
  | (r, env) :: rest => run rest (db_after (router r env db))
  end.

End Controller.

(** ** Bodies whose values the schema has to cast

    A client can send any JSON value under the name of a schema field.
    [findByIdAndUpdate] casts the update to the types of the schema before
    the update validators run and before any command goes to storage; a
    value the cast refuses makes the call reject with a CastError.
    [Supplied A] is a sent value as that cast sees it: [Castable a] is a
    value of the field's type, or one the cast converts to [a];
    [Uncastable raw] is a value the cast refuses, such as the string
    [banana] under [status], whose type is Boolean. *)
Inductive Supplied (A : Type) :=
| Castable (a : A)
| Uncastable (raw : JsVal).

Arguments Castable {A} a.
Arguments Uncastable {A} raw.

(** [req.body] with the four schema fields as the client sent them. *)
Record RawBody := mkRawBody {
  raw_title : option (Supplied string);
  raw_description : option (Supplied string);
  raw_status : option (Supplied bool);
  raw_priority : option (Supplied string);
  raw_rest : list (string * JsVal);
}.

(** The object [updates] of [updateTodo] before the cast. *)
Record RawUpdates := mkRawUpdates {
  u_title : option (Supplied string);
  u_description : option (Supplied string);
  u_status : option (Supplied bool);
  u_priority : option (Supplied string);
}.

(** The cast of one path: [None] is the CastError. *)
Definition cast {A} (v : option (Supplied A)) : option (option A) :=
  match v with
  | None => Some None
  | Some (Castable a) => Some (Some a)
  | Some (Uncastable _) => None
  end.

(** The cast of the whole update. *)
Definition castUpdate (u : RawUpdates) : option Fields :=
  match cast (u_title u), cast (u_description u),
        cast (u_status u), cast (u_priority u) with
  | Some t, Some d, Some s, Some p => Some (mkFields t d s p)
  | _, _, _, _ => None
  end.

(** The body at the types of the schema, when every value it supplies for
    a schema field can be cast. *)
Definition typed (b : RawBody) : option ReqBody :=
  match cast (raw_title b), cast (raw_description b),
        cast (raw_status b), cast (raw_priority b) with
  | Some t, Some d, Some s, Some p => Some (mkBody t d s p (raw_rest b))
  | _, _, _, _ => None
  end.

(** A body that is at the types of the schema already. *)
Definition untyped (b : ReqBody) : RawBody :=
  {| raw_title := Castable <$> b_title b;
     raw_description := Castable <$> b_description b;
     raw_status := Castable <$> b_status b;
     raw_priority := Castable <$> b_priority b;
     raw_rest := b_rest b |}.

(** The handler of PATCH on any body.  [updateTodo] above is this handler
    on the bodies that are at the types of the schema. *)
Module Raw.

Section Controller.

Variable castObjectId : string -> option ObjectId.

(** [Object.keys(updates)] *)
Definition Object_keys (u : RawUpdates) : list string :=
  (match u_title u with Some _ => ["title"] | None => [] end
   ++ match u_description u with Some _ => ["description"] | None => [] end
   ++ match u_status u with Some _ => ["status"] | None => [] end
   ++ match u_priority u with Some _ => ["priority"] | None => [] end)%list.

(** [Todo.findByIdAndUpdate(id, updates, { new: true, runValidators: true })]:
    the cast comes first, and a CastError ends the call before the
    validators and before any storage command.  On the right-hand side
    [Todo_findByIdAndUpdate] is the call on a cast update, as defined
    above. *)
Definition Todo_findByIdAndUpdate
    (env : Env) (db : Db) (id : string) (updates : RawUpdates)
  : Await (option Todo) :=
  match castUpdate updates with
  | None => (Rejected CastError, db, [])
  | Some u => Todo_findByIdAndUpdate castObjectId env db id u
  end.

(** PATCH /api/todos/:id *)
Definition updateTodo (id : string) (b : RawBody) (env : Env) (db : Db)
  : Outcome :=
  if negb (isValidObjectId castObjectId id)
  then mkOutcome (json 400 (response false (invalid_id_message id) JNull))
                 db []
  else
    let title := raw_title b in
    let description := raw_description b in
    let status := raw_status b in
    let priority := raw_priority b in
    let updates :=
      {| u_title := match title with Some v => Some v | None => None end;
         u_description :=
           match description with Some v => Some v | None => None end;
         u_status := match status with Some v => Some v | None => None end;
         u_priority :=
           match priority with Some v => Some v | None => None end |} in
    if Nat.eqb (length (Object_keys updates)) 0
    then mkOutcome
           (json 400 (response false "No valid fields provided for update" JNull))
           db []
    else
      match Todo_findByIdAndUpdate env db id updates with
      | (Resolved None, db', cs) =>
          mkOutcome (json 404 (response false "Todo not found" JNull)) db' cs
      | (Resolved (Some todo), db', cs) =>
          mkOutcome
            (json 200 (response true "Todo updated successfully" (toJSON todo)))
            db' cs
      | (Rejected (ValidationError errors), db', cs) =>
          mkOutcome
            (json 400 (response false (Js.join ". " (messages errors)) JNull))
            db' cs
      | (Rejected _, db', cs) =>
          mkOutcome
            (json 500 (response false "Server error while updating todo" JNull))
            db' cs
      end.

End Controller.

End Raw.

(** ** Identifiers in the 24-digit hexadecimal form

    One identifier syntax the parameter [castObjectId] can be instantiated
    with: exactly 24 hexadecimal digits, read as a number. *)

Module Bson.

Definition hex_digit (c : Ascii.ascii) : option N :=
  let n := Ascii.N_of_ascii c in
  if bool_decide (48 ≤ n ≤ 57)%N then Some (n - 48)%N
  else if bool_decide (97 ≤ n ≤ 102)%N then Some (n - 87)%N
  else if bool_decide (65 ≤ n ≤ 70)%N then Some (n - 55)%N
  else None.

Fixpoint hex_value (acc : N) (s : string) : option N :=
  match s with
  | EmptyString => Some acc
  | String c s' =>
      match hex_digit c with
      | Some d => hex_value (16 * acc + d)%N s'
      | None => None
      end
  end.

Definition ofHexString (s : string) : option ObjectId :=
  if Nat.eqb (String.length s) 24 then hex_value 0%N s else None.

End Bson.

(** ** Vocabulary of the specification *)

(** "title length at least 3 after trim" *)
Definition title_ok (t : string) : Prop := (3 ≤ String.length (Js.trim t))%nat.

(** "priority in the fixed three-value set" *)
Definition priority_ok (p : string) : Prop := p ∈ Schema.enum_values.

(** The data-model invariants of one record. *)
Definition record_ok (d : Todo) : Prop :=
  title_ok (title d) ∧ priority_ok (priority d) ∧ createdAt d <= updatedAt d.

(** The request supplies at least one field of the whitelist. *)
Definition supplies_some (b : ReqBody) : Prop :=
  is_Some (b_title b) ∨ is_Some (b_description b)
  ∨ is_Some (b_status b) ∨ is_Some (b_priority b).

(** Every supplied field is acceptable on its own. *)
Definition supplied_ok (b : ReqBody) : Prop :=
  (∀ t, b_title b = Some t → title_ok t)
  ∧ (∀ p, b_priority b = Some p → priority_ok p).

(** The supplied fields laid over a stored record, as the client sent them. *)
Definition overlay (b : ReqBody) (d : Todo) : Todo :=
  {| _id := _id d;
     title := default (title d) (b_title b);
     description := default (description d) (b_description b);
     status := default (status d) (b_status b);
     priority := default (priority d) (b_priority b);
     createdAt := createdAt d;
     updatedAt := updatedAt d |}.

(** The field-level violations of a creation input, in schema order. *)
Definition create_violations (b : ReqBody) : list (string * string) :=
  (match b_title b with
   | None => [("title", "Title is required")]
   | Some t =>
       if Nat.eqb (String.length (Js.trim t)) 0
       then [("title", "Title is required")]
       else if Nat.ltb (String.length (Js.trim t)) 3
            then [("title", "Title must be at least 3 characters long")]
            else []
   end
   ++
   match b_priority b with
   | Some p =>
       if bool_decide (priority_ok p) then [] else [("priority", snd Schema.enum)]
   | None => []
   end)%list.

(** The uniform envelope: an object with exactly the members [success]
    (a boolean), [message] (a string) and [data] (a record, a list of
    records, or null). *)
Definition is_data (v : JsVal) : Prop :=
  v = JNull ∨ (∃ d, v = toJSON d) ∨ (∃ ds, v = JArr (toJSON <$> ds)).

Definition is_envelope (v : JsVal) : Prop :=
  ∃ (success : bool) (message : string) (data : JsVal),
    v = JObj [("success", JBool success);
              ("message", JStr message);
              ("data", data)]
    ∧ is_data data.

(** Successive clock readings never go back: starting from [t], each
    request reads [date_now] and then [timestamp_now]. *)
Fixpoint clock_monotone (t : Z) (rs : list (Request * Env)) : Prop :=
  match rs with
  | [] => True
  | (_, env) :: rest =>
      t <= date_now env <= timestamp_now env
      ∧ clock_monotone (timestamp_now env) rest
  end.

(** A store whose records all satisfy the invariants, carry their own key,
    were issued below the counter and were last written no later than
    [now]. *)
Definition store_ok (now : Z) (db : Db) : Prop :=
  ∀ i d, docs db !! i = Some d →
    _id d = i ∧ (i < next_id db)%N ∧ record_ok d ∧ updatedAt d <= now.

(** The records held by the store. *)
Definition records (db : Db) : list Todo := (map_to_list (docs db)).*2.

(** A record is asked for by a list request when it agrees with every
    filter the request carries; a status parameter asks for completed
    records exactly when it is the string [true]. *)
Definition wanted (q : Query) (d : Todo) : Prop :=
  match q_status q with
  | Some s => status d = bool_decide (s = "true")
  | None => True
  end
  ∧
  match q_priority q with
  | Some p => priority d = p
  | None => True
  end.

#[global] Instance wanted_dec q d : Decision (wanted q d).
Proof.
  unfold wanted. destruct (q_status q), (q_priority q); apply _.
Defined.

(** The message of a successful list request. *)
Definition count_message (n : nat) : string :=
  pretty n +:+ " todo(s) retrieved successfully".

(** The field-level violations of an update: only supplied fields can
    violate anything; the priority's comes first. *)
Definition update_violations (b : ReqBody) : list (string * string) :=
  (match b_priority b with
   | Some p =>
       if bool_decide (priority_ok p) then [] else [("priority", snd Schema.enum)]
   | None => []
   end
   ++
   match b_title b with
   | None => []
   | Some t =>
       if Nat.eqb (String.length (Js.trim t)) 0
       then [("title", "Title is required")]
       else if Nat.ltb (String.length (Js.trim t)) 3
            then [("title", "Title must be at least 3 characters long")]
            else []
   end)%list.

(** The record an accepted update leaves in the store: supplied fields
    replace the stored ones (text fields trimmed), [updatedAt] is the
    current reading, everything else stays. *)
Definition updated (now : Z) (b : ReqBody) (d : Todo) : Todo :=
  {| _id := _id d;
     title := match b_title b with Some t => Js.trim t | None => title d end;
     description :=
       match b_description b with
       | Some x => Js.trim x
       | None => description d
       end;
     status := match b_status b with Some x => x | None => status d end;
     priority := match b_priority b with Some p => p | None => priority d end;
     createdAt := createdAt d;
     updatedAt := now |}.

(** A later store continues an earlier one: identifiers issued so far are
    not issued again, and a record that is still there has kept its id and
    createdAt and has not moved its updatedAt back. *)
Definition continues (db db' : Db) : Prop :=
  (next_id db ≤ next_id db')%N
  ∧ ∀ i d', (i < next_id db)%N → docs db' !! i = Some d' →
      ∃ d, docs db !! i = Some d
           ∧ _id d' = _id d
           ∧ createdAt d' = createdAt d
           ∧ updatedAt d <= updatedAt d'.

(** The outcome of a request whose identifier is malformed. *)
Definition bad_id (id : string) (db : Db) : Outcome :=
  mkOutcome (json 400 (response false (invalid_id_message id) JNull)) db [].

(** The last clock reading of a sequence of requests that starts at [t]. *)
Fixpoint clock_end (t : Z) (rs : list (Request * Env)) : Z :=
  match rs with
  | [] => t
  | (_, env) :: rest => clock_end (timestamp_now env) rest
  end.

(** A record and a store holding just that record, for the examples. *)
Definition milk : Todo :=
  {| _id := 0%N;
     title := "Buy milk";
     description := EmptyString;
     status := false;
     priority := "medium";
     createdAt := 100;
     updatedAt := 101 |}.

Definition milk_db : Db := {| docs := {[0%N := milk]}; next_id := 1%N |}.

(** Stored text is kept in trimmed form: the title and the description of
    every record are their own trim, so the stored title itself has at least
    three characters. *)
Definition stored_trimmed (db : Db) : Prop :=
  ∀ i d, docs db !! i = Some d →
    Js.trim (title d) = title d
    ∧ Js.trim (description d) = description d
    ∧ (3 ≤ String.length (title d))%nat.

(** ** The error-handling middleware and the unknown-route handler *)

(** An error object, as far as [errorHandler] reads it.  [None] is a member
    that is [undefined].  [err_statusCode] and [err_status] are integers
    when present; [err_code] is [err.code] when it is a number;
    [err_keyValue] lists the own keys of [err.keyValue] in enumeration
    order; [err_errors] lists the entries of [err.errors] as pairs of path
    and message; [err_path] and [err_value] are strings when present. *)
Record JsError := mkError {
  err_name : string;
  err_message : option string;
  err_statusCode : option Z;
  err_status : option Z;
  err_code : option Z;
  err_keyValue : option (list string);
  err_errors : option (list (string * string));
  err_path : option string;
  err_value : option string;
  err_stack : option string;
}.

(** [a || b] for a number [a] that may be undefined: zero and undefined
    are falsy. *)
Definition or_number (a : option Z) (b : Z) : Z :=
  match a with
  | Some n => if Z.eqb n 0 then b else n
  | None => b
  end.

(** [a || b] for a string [a] that may be undefined: the empty string and
    undefined are falsy. *)
Definition or_string (a : option string) (b : string) : string :=
  match a with
  | Some EmptyString | None => b
  | Some s => s
  end.

(** A value that may be undefined, inside a template literal. *)
Definition interpolate (v : option string) : string :=
  default "undefined" v.

(** [errorHandler(err, req, res, _next)]: the response written, or [None]
    when the middleware itself throws: [Object.values] of an undefined
    [err.errors] is a TypeError, and [res.status(statusCode).json(...)] is a
    RangeError for a status outside 100..999.  [NODE_ENV] is
    [process.env.NODE_ENV].  A [stack] member whose value is undefined is
    not part of the body sent. *)
Definition errorHandler (NODE_ENV : option string) (err : JsError)
  : option Response :=
  let statusCode :=
    or_number (err_statusCode err) (or_number (err_status err) 500) in
  let message := or_string (err_message err) "Internal Server Error" in
  let validation :=
    if String.eqb (err_name err) "ValidationError"
    then match err_errors err with
         | Some errors => Some (400, Js.join ". " (messages errors))
         | None => None
         end
    else Some (statusCode, message) in
  match validation with
  | None => None
  | Some (statusCode, message) =>
      let '(statusCode, message) :=
        if String.eqb (err_name err) "CastError"
        then (400,
              "Invalid value for field " +:+ Js.dq
                +:+ interpolate (err_path err) +:+ Js.dq +:+ ": "
                +:+ interpolate (err_value err))
        else (statusCode, message) in
      let '(statusCode, message) :=
        if bool_decide (err_code err = Some 11000)
        then
          let field :=
            or_string (head (default [] (err_keyValue err))) "field" in
          (409,
           "Duplicate value for " +:+ Js.dq +:+ field +:+ Js.dq
             +:+ ". Please use a different value.")
        else (statusCode, message) in
      if bool_decide (100 <= statusCode <= 999)
      then
        Some
          (json statusCode
             (JObj
                ([("success", JBool false);
                  ("message", JStr message);
                  ("data", JNull)]
                 ++ (if bool_decide (NODE_ENV ≠ Some "production")
                     then match err_stack err with
                          | Some st => [("stack", JStr st)]
                          | None => []
                          end
                     else []))%list))
      else None
  end.

(** The error the unknown-route handler of [server.js] passes to [next]:
    a fresh [Error] with the given message, [statusCode] 404, and the stack
    the runtime recorded. *)
Definition route_not_found (method originalUrl stack : string) : JsError :=
  {| err_name := "Error";
     err_message :=
       Some ("Route not found: " +:+ method +:+ " " +:+ originalUrl);
     err_statusCode := Some 404;
     err_status := None;
     err_code := None;
     err_keyValue := None;
     err_errors := None;
     err_path := None;
     err_value := None;
     err_stack := Some stack |}.

(** ** The client ([TodoForm], [TodoItem], [App])

    The client keeps the records the API returned; a record is a [Todo] and
    [t.id || t._id] is its [_id].  The text inputs and selects hold strings.
    Each handler makes one call to the API and runs to its end before the
    next one starts; what comes back from the call is an [ApiResult]. *)

Module Client.

(** The state of a create or edit form: [{ title, description, priority }]. *)
Record Form := mkForm {
  form_title : string;
  form_description : string;
  form_priority : string;
}.

Definition INITIAL : Form := mkForm EmptyString EmptyString "medium".

(** [TodoForm.handleSubmit]: the argument handed to [onAdd], if any, then
    the form and the error message afterwards. *)
Definition handleSubmit (form : Form) (error : string)
  : option Form * Form * string :=
  if Nat.ltb (String.length (Js.trim (form_title form))) 3
  then (None, form, "Title must be at least 3 characters.")
  else (Some form, INITIAL, error).

(** The initial [editData] of [TodoItem], also restored by [handleCancel]. *)
Definition editData_of (todo : Todo) : Form :=
  {| form_title := title todo;
     form_description :=
       match description todo with
       | EmptyString => EmptyString
       | s => s
       end;
     form_priority := priority todo |}.

(** [TodoItem.handleSave]: the arguments handed to [onUpdate], if any, and
    whether the item is still being edited. *)
Definition handleSave (todo : Todo) (editData : Form) (editing : bool)
  : option (ObjectId * Form) * bool :=
  if Nat.ltb (String.length (Js.trim (form_title editData))) 3
  then (None, editing)
  else (Some (_id todo, editData), false).

(** The body the server parses from the JSON of a form. *)
Definition form_body (f : Form) : ReqBody :=
  mkBody (Some (form_title f)) (Some (form_description f)) None
         (Some (form_priority f)) [].

(** The body of [{ status: v }]. *)
Definition status_body (v : bool) : ReqBody :=
  mkBody None None (Some v) None [].

(** The filter selects of [App]: the empty string is the choice All. *)
Record Filters := mkFilters {
  filter_status : string;
  filter_priority : string;
}.

(** The [params] object built by [loadTodos], as the server reads it from
    the query string. *)
Definition params (filters : Filters) : Query :=
  {| q_status :=
       match filter_status filters with
       | EmptyString => None
       | s => Some s
       end;
     q_priority :=
       match filter_priority filters with
       | EmptyString => None
       | p => Some p
       end |}.

(** How a call to the API ends: fulfilled with [data.data], or rejected,
    with [err.response?.data?.message] when there is one. *)
Inductive ApiResult (A : Type) :=
| Fulfilled (data : A)
| Failed (message : option string).
Arguments Fulfilled {A} data.
Arguments Failed {A} message.

(** [m || fallback] for the message of a rejected call. *)
Definition message_or (m : option string) (fallback : string) : string :=
  match m with
  | Some EmptyString | None => fallback
  | Some s => s
  end.

(** What axios makes of a response ([None]: no response arrived): statuses
    from 200 to 299 fulfil the call, anything else rejects it. *)
Definition axios (r : option Response) : ApiResult (option JsVal) :=
  match r with
  | None => Failed None
  | Some r =>
      let member_of k :=
        match body r with
        | Some (JObj ms) => member k ms
        | _ => None
        end in
      if bool_decide (200 <= statusCode r < 300)
      then Fulfilled (member_of "data")
      else Failed
             match member_of "message" with
             | Some (JStr m) => Some m
             | _ => None
             end
  end.

(** The part of the [App] state the handlers below touch.  The flags
    [loading] and [saving] are back to [false] when a handler has run. *)
Record App := mkApp {
  todos : list Todo;
  error : string;
}.

Definition with_status (v : bool) (t : Todo) : Todo :=
  {| _id := _id t; title := title t; description := description t;
     status := v; priority := priority t;
     createdAt := createdAt t; updatedAt := updatedAt t |}.

(** [handleAdd], given how the call ended. *)
Definition handleAdd (result : ApiResult Todo) (app : App) : App :=
  match result with
  | Fulfilled data => {| todos := data :: todos app; error := EmptyString |}
  | Failed m =>
      {| todos := todos app;
         error := message_or m "Failed to create todo." |}
  end.

(** The optimistic update of [handleToggle]. *)
Definition flip (id : ObjectId) (prev : list Todo) : list Todo :=
  (λ t, if N.eqb (_id t) id then with_status (negb (status t)) t else t)
    <$> prev.

(** The rollback of [handleToggle]. *)
Definition unflip (id : ObjectId) (original : Todo) (prev : list Todo)
  : list Todo :=
  (λ t, if N.eqb (_id t) id then with_status (status original) t else t)
    <$> prev.

(** [handleToggle]: the body sent, if a call is made, and the state
    afterwards given how that call ended.  When no record has the id,
    reading [original.status] throws before any call is made, and the
    [catch] block runs. *)
Definition handleToggle {A} (id : ObjectId) (app : App)
  : option ReqBody * (ApiResult A → App) :=
  let original := List.find (λ t, N.eqb (_id t) id) (todos app) in
  let optimistic := flip id (todos app) in
  match original with
  | Some original =>
      (Some (status_body (negb (status original))),
       λ result,
         match result with
         | Fulfilled _ => {| todos := optimistic; error := error app |}
         | Failed m =>
             {| todos := unflip id original optimistic;
                error := message_or m "Failed to update status." |}
         end)
  | None =>
      (None,
       λ _, {| todos := optimistic; error := "Failed to update status." |})
  end.

(** [handleUpdate], given how the call ended. *)
Definition handleUpdate (id : ObjectId) (result : ApiResult Todo) (app : App)
  : App :=
  match result with
  | Fulfilled data =>
      {| todos := (λ t, if N.eqb (_id t) id then data else t) <$> todos app;
         error := EmptyString |}
  | Failed m =>
      {| todos := todos app;
         error := message_or m "Failed to update todo." |}
  end.

(** [handleDelete], given how the call ended. *)
Definition handleDelete {A} (id : ObjectId) (result : ApiResult A) (app : App)
  : App :=
  let backup := todos app in
  let optimistic := filter (λ t, _id t ≠ id) (todos app) in
  match result with
  | Fulfilled _ => {| todos := optimistic; error := error app |}
  | Failed m =>
      {| todos := backup;
         error := message_or m "Failed to delete todo." |}
  end.

(** [loadTodos], given how the call ended; the call carries
    [params filters]. *)
Definition loadTodos (result : ApiResult (list Todo)) (app : App) : App :=
  match result with
  | Fulfilled data => {| todos := data; error := EmptyString |}
  | Failed m =>
      {| todos := todos app;
         error := message_or m "Failed to load todos. Is the server running?" |}
  end.

(** A record held by the client agrees with a stored one when they differ
    at most in [updatedAt]. *)
Definition agrees (t stored : Todo) : Prop :=
  _id t = _id stored
  ∧ title t = title stored
  ∧ description t = description stored
  ∧ status t = status stored
  ∧ priority t = priority stored
  ∧ createdAt t = createdAt stored.

(** The three numbers of the summary strip. *)
Definition totalCount (app : App) : nat := length (todos app).

Definition completedCount (app : App) : nat :=
  length (filter (λ t, status t = true) (todos app)).

Definition pendingCount (app : App) : nat :=
  (totalCount app - completedCount app)%nat.

End Client.

(** * Properties *)

(** ** The definitions on small inputs *)

Example trim_example : Js.trim "   Buy milk  " = "Buy milk".
Proof. reflexivity. Qed.

Example join_example : Js.join ". " ["a"; "b"; "c"] = "a. b. c".
Proof. reflexivity. Qed.

Example enum_message_length :
  String.length (snd Schema.enum) = 50%nat.
Proof. reflexivity. Qed.

Example ofHexString_zero :
  Bson.ofHexString "000000000000000000000000" = Some 0%N.
Proof. reflexivity. Qed.

Example ofHexString_short : Bson.ofHexString "42" = None.
Proof. reflexivity. Qed.

Example count_message_example :
  count_message 12 = "12 todo(s) retrieved successfully".
Proof. reflexivity. Qed.

Example invalid_id_message_length :
  String.length (invalid_id_message "42") = 27%nat.
Proof. reflexivity. Qed.

Example list_newest_first :
  let db :=
    run Bson.ofHexString
      [(POST_todos (mkBody (Some "first") None None None []),
        mkEnv 10 10 true);
       (POST_todos (mkBody (Some "second") None None (Some "high") []),
        mkEnv 20 21 true);
       (POST_todos (mkBody (Some "third") None (Some true) None []),
        mkEnv 30 30 true)]
      empty_db in
  body (res (getAllTodos (mkQuery (Some "no") None) (mkEnv 40 40 true) db))
  = Some
      (response true "2 todo(s) retrieved successfully"
         (JArr [toJSON (mkTodo 1%N "second" EmptyString false "high" 20 21);
                toJSON (mkTodo 0%N "first" EmptyString false "medium" 10 10)])).
Proof. reflexivity. Qed.

Example delete_twice :
  let env := mkEnv 300 301 true in
  let id := "000000000000000000000000" in
  let first := deleteTodo Bson.ofHexString id env milk_db in
  statusCode (res first) = 204
  ∧ statusCode (res (deleteTodo Bson.ofHexString id env (db_after first))) = 404.
Proof. split; reflexivity. Qed.

(** ** Strings *)

Lemma trimEnd_keep c s :
  Js.is_ws c = false → Js.trimEnd (String c s) = String c (Js.trimEnd s).
Proof.
  intros Hc. cbn [Js.trimEnd]. rewrite Hc. by destruct (Js.trimEnd s).
Qed.

Lemma trimEnd_idemp s : Js.trimEnd (Js.trimEnd s) = Js.trimEnd s.
Proof.
  induction s as [|c s IH]; [done|].
  cbn [Js.trimEnd]. destruct (Js.trimEnd s) as [|c' r] eqn:E.
  - destruct (Js.is_ws c) eqn:Hc; [done|].
    cbn [Js.trimEnd]. by rewrite Hc.
  - cbn [Js.trimEnd] in *. by rewrite IH.
Qed.

Lemma trimStart_head s c r :
  Js.trimStart s = String c r → Js.is_ws c = false.
Proof.
  induction s as [|c' s IH]; [done|].
  cbn [Js.trimStart]. destruct (Js.is_ws c') eqn:Hc; [done|].
  intros [= -> ->]. done.
Qed.

Lemma trim_idemp s : Js.trim (Js.trim s) = Js.trim s.
Proof.
  unfold Js.trim. destruct (Js.trimStart s) as [|c r] eqn:E; [done|].
  pose proof (trimStart_head _ _ _ E) as Hc.
  rewrite trimEnd_keep by done.
  cbn [Js.trimStart]. rewrite Hc.
  rewrite trimEnd_keep by done. by rewrite trimEnd_idemp.
Qed.

Lemma title_ok_trim t : title_ok t → title_ok (Js.trim t).
Proof. unfold title_ok. by rewrite trim_idemp. Qed.

(** ** Validators *)

Lemma title_errors_spec (v : option string) :
  Schema.path_errors "title" Schema.title_validators v =
  match v with
  | None => [("title", "Title is required")]
  | Some s =>
      if Nat.eqb (String.length s) 0
      then [("title", "Title is required")]
      else if Nat.ltb (String.length s) 3
           then [("title", "Title must be at least 3 characters long")]
           else []
  end.
Proof.
  destruct v as [s|]; [|done].
  unfold Schema.path_errors, Schema.title_validators, Schema.required,
    Schema.minlength, Schema.doValidate.
  destruct (Nat.eqb_spec (String.length s) 0) as [->|Hn]; [done|].
  cbn [negb]. destruct (Nat.ltb_spec (String.length s) 3) as [Hlt|Hge].
  - by rewrite (proj2 (Nat.leb_gt _ _) Hlt).
  - by rewrite (proj2 (Nat.leb_le _ _) Hge).
Qed.

Lemma priority_errors_spec (p : string) :
  Schema.path_errors "priority" Schema.priority_validators p =
  if bool_decide (priority_ok p) then [] else [("priority", snd Schema.enum)].
Proof.
  unfold Schema.path_errors, Schema.priority_validators, Schema.doValidate,
    Schema.enum, priority_ok.
  cbn [fst snd]. by case_bool_decide.
Qed.

Lemma title_errors_ok s :
  (3 ≤ String.length s)%nat →
  Schema.path_errors "title" Schema.title_validators (Some s) = [].
Proof.
  intros H. rewrite title_errors_spec.
  destruct (Nat.eqb_spec (String.length s) 0); [lia|].
  destruct (Nat.ltb_spec (String.length s) 3); [lia|done].
Qed.

Lemma title_errors_bad s :
  (String.length s < 3)%nat →
  Schema.path_errors "title" Schema.title_validators (Some s) ≠ [].
Proof.
  intros H. rewrite title_errors_spec.
  destruct (Nat.eqb_spec (String.length s) 0); [done|].
  destruct (Nat.ltb_spec (String.length s) 3); [done|lia].
Qed.

Lemma priority_errors_ok p :
  priority_ok p →
  Schema.path_errors "priority" Schema.priority_validators p = [].
Proof. intros H. rewrite priority_errors_spec. by rewrite bool_decide_eq_true_2. Qed.

Lemma priority_errors_bad p :
  ¬ priority_ok p →
  Schema.path_errors "priority" Schema.priority_validators p ≠ [].
Proof. intros H. rewrite priority_errors_spec. by rewrite bool_decide_eq_false_2. Qed.

Lemma priority_default_ok : priority_ok Schema.priority_default.
Proof. unfold priority_ok, Schema.enum_values, Schema.priority_default. set_solver. Qed.

(** ** Create *)

Lemma create_errors_spec (b : ReqBody) :
  (Schema.path_errors "title" Schema.title_validators
     (Schema.trim_setter (b_title b))
   ++ Schema.path_errors "priority" Schema.priority_validators
        (default Schema.priority_default (b_priority b)))%list
  = create_violations b.
Proof.
  unfold create_violations. rewrite title_errors_spec, priority_errors_spec.
  f_equal.
  - by destruct (b_title b).
  - destruct (b_priority b) as [p|]; [done|].
    cbn [default]. by rewrite bool_decide_eq_true_2 by apply priority_default_ok.
Qed.

Lemma createTodo_unfold (b : ReqBody) (env : Env) (db : Db) :
  createTodo b env db =
  match create_violations b with
  | (_ :: _) as errors =>
      mkOutcome
        (json 400 (response false (Js.join ". " (messages errors)) JNull))
        db []
  | [] =>
      let doc :=
        {| _id := next_id db;
           title := default EmptyString (Js.trim <$> b_title b);
           description := default EmptyString (Js.trim <$> b_description b);
           status := default false (b_status b);
           priority := default "medium" (b_priority b);
           createdAt := date_now env;
           updatedAt := timestamp_now env |} in
      if storage_up env && bool_decide (docs db !! next_id db = None)
      then mkOutcome
             (json 201 (response true "Todo created successfully" (toJSON doc)))
             {| docs := <[next_id db := doc]> (docs db);
                next_id := (next_id db + 1)%N |}
             [InsertOne doc]
      else mkOutcome
             (json 500 (response false "Server error while creating todo" JNull))
             db [InsertOne doc]
  end.
Proof.
  unfold createTodo, Todo_create. cbn [f_title f_priority f_description f_status].
  rewrite create_errors_spec.
  destruct (create_violations b); [|reflexivity].
  cbn zeta. destruct (storage_up env && _); reflexivity.
Qed.




(** C2.  A creation input whose title is absent or has trim-length below 3
    is answered with 400; the message is the field-level violation messages
    joined by a full stop and a space (the title's message first, then the
    priority's when the supplied priority is outside the enumeration); the
    store is unchanged and no storage command is sent. *)
Theorem createTodo_invalid_title (b : ReqBody) (env : Env) (db : Db) :
  (b_title b = None
   ∨ ∃ t, b_title b = Some t ∧ (String.length (Js.trim t) < 3)%nat) →
  createTodo b env db =
    mkOutcome
      (json 400
         (response false (Js.join ". " (messages (create_violations b))) JNull))
      db []
  ∧ create_violations b =
      ("title",
       match b_title b with
       | None => "Title is required"
       | Some t =>
           if Nat.eqb (String.length (Js.trim t)) 0
           then "Title is required"
           else "Title must be at least 3 characters long"
       end) ::
      match b_priority b with
      | Some p =>
          if bool_decide (priority_ok p) then []
          else [("priority", snd Schema.enum)]
      | None => []
      end.
Proof.
  intros H.
  assert (create_violations b =
          ("title",
           match b_title b with
           | None => "Title is required"
           | Some t =>
               if Nat.eqb (String.length (Js.trim t)) 0
               then "Title is required"
               else "Title must be at least 3 characters long"
           end) ::
          match b_priority b with
          | Some p =>
              if bool_decide (priority_ok p) then []
              else [("priority", snd Schema.enum)]
          | None => []
          end) as Hv.
  { unfold create_violations.
    destruct H as [->|(t & -> & Hlt)]; [done|].
    destruct (Nat.eqb_spec (String.length (Js.trim t)) 0); [done|].
    destruct (Nat.ltb_spec (String.length (Js.trim t)) 3); [done|lia]. }
  split; [|exact Hv].
  rewrite createTodo_unfold. by rewrite Hv.
Qed.

Lemma createTodo_invalid_title_witness :
  createTodo (mkBody (Some " a ") None None (Some "urgent") [])
             (mkEnv 100 101 true) empty_db
  = mkOutcome
      (json 400
         (response false
            ("Title must be at least 3 characters long. "
             +:+ snd Schema.enum) JNull))
      empty_db [].
Proof.
  destruct (createTodo_invalid_title
              (mkBody (Some " a ") None None (Some "urgent") [])
              (mkEnv 100 101 true) empty_db) as [H _].
  - right. exists " a ". split; [reflexivity|]. vm_compute. lia.
  - rewrite H. reflexivity.
Defined.

(** ** List *)

#[local] Instance newest_first_trans : Transitive newest_first.
Proof. intros a b c. unfold newest_first. lia. Qed.

#[local] Instance newest_first_total : Total newest_first.
Proof. intros a b. unfold newest_first. lia. Qed.

Lemma String_eqb_decide (s1 s2 : string) :
  String.eqb s1 s2 = bool_decide (s1 = s2).
Proof.
  destruct (String.eqb_spec s1 s2).
  - by rewrite bool_decide_eq_true_2.
  - by rewrite bool_decide_eq_false_2.
Qed.

Lemma matches_wanted (q : Query) (d : Todo) :
  matches
    {| flt_status :=
         match q_status q with
         | Some s => Some (String.eqb s "true")
         | None => None
         end;
       flt_priority :=
         match q_priority q with Some p => Some p | None => None end |} d
  ↔ wanted q d.
Proof.
  unfold matches, wanted. cbn [flt_status flt_priority].
  rewrite andb_True.
  destruct (q_status q) as [s|], (q_priority q) as [p|];
    rewrite ?String_eqb_decide, ?bool_decide_spec; naive_solver.
Qed.

Lemma getAllTodos_up (q : Query) (env : Env) (db : Db) :
  storage_up env = true →
  ∃ f,
    getAllTodos q env db =
    let todos := merge_sort newest_first (filter (wanted q) (records db)) in
    mkOutcome
      (json 200
         (response true (count_message (length todos))
            (JArr (toJSON <$> todos))))
      db [FindMany f].
Proof.
  intros Hup. eexists. unfold getAllTodos, Todo_find_sort. rewrite Hup.
  cbn zeta. unfold count_message, records.
  by rewrite (list_filter_iff _ _ _ (matches_wanted q)).
Qed.

(** C3.  When the storage call goes through, the list operation answers 200
    with a list that is a rearrangement of the stored records agreeing with
    every supplied filter (a filter that is absent constrains nothing, two
    filters must both hold), ordered newest createdAt first; the message
    reports the length of that list, and the store is unchanged. *)
Theorem getAllTodos_filtered_sorted (q : Query) (env : Env) (db : Db) :
  storage_up env = true →
  ∃ todos,
    res (getAllTodos q env db)
      = json 200
          (response true
             (pretty (length todos) +:+ " todo(s) retrieved successfully")
             (JArr (toJSON <$> todos)))
    ∧ db_after (getAllTodos q env db) = db
    ∧ todos ≡ₚ filter (wanted q) (records db)
    ∧ (∀ d, d ∈ todos ↔ d ∈ records db ∧ wanted q d)
    ∧ StronglySorted (λ a b, createdAt b <= createdAt a) todos.
Proof.
  intros Hup. destruct (getAllTodos_up q env db Hup) as [f ->].
  cbn zeta. eexists. split_and!; try reflexivity.
  - apply merge_sort_Permutation.
  - intros d. rewrite merge_sort_Permutation, list_elem_of_filter. tauto.
  - apply (StronglySorted_merge_sort newest_first).
Qed.

Lemma getAllTodos_filtered_sorted_witness :
  ∃ todos,
    res (getAllTodos (mkQuery (Some "false") (Some "medium"))
                     (mkEnv 300 301 true) milk_db)
      = json 200
          (response true
             (pretty (length todos) +:+ " todo(s) retrieved successfully")
             (JArr (toJSON <$> todos)))
    ∧ todos ≡ₚ [milk].
Proof.
  destruct (getAllTodos_filtered_sorted
              (mkQuery (Some "false") (Some "medium"))
              (mkEnv 300 301 true) milk_db)
    as (todos & Hres & _ & Hperm & _).
  - reflexivity.
  - exists todos. split; [exact Hres | exact Hperm].
Defined.

(** C10.  A list request that carries a status parameter is never refused
    on account of that parameter: the answer is 200, every record returned
    has status true when the parameter is the string [true] and status
    false for any other string, and a parameter other than [true] is
    answered exactly like the parameter [false]. *)
Theorem getAllTodos_status_parameter
    (s : string) (p : option string) (env : Env) (db : Db) :
  storage_up env = true →
  ∃ todos,
    res (getAllTodos (mkQuery (Some s) p) env db)
      = json 200
          (response true (count_message (length todos))
             (JArr (toJSON <$> todos)))
    ∧ (∀ d, d ∈ todos ↔
            d ∈ records db
            ∧ (status d = true ↔ s = "true")
            ∧ (∀ p', p = Some p' → priority d = p'))
    ∧ (s ≠ "true" →
       getAllTodos (mkQuery (Some s) p) env db
       = getAllTodos (mkQuery (Some "false") p) env db).
Proof.
  intros Hup.
  destruct (getAllTodos_up (mkQuery (Some s) p) env db Hup) as [f Hf].
  eexists. split_and!.
  - rewrite Hf. reflexivity.
  - intros d. rewrite merge_sort_Permutation, list_elem_of_filter.
    unfold wanted. cbn [q_status q_priority].
    assert (status d = bool_decide (s = "true")
            ↔ (status d = true ↔ s = "true")) as ->.
    { destruct (decide (s = "true")) as [Hs|Hs].
      - rewrite bool_decide_eq_true_2 by done. tauto.
      - rewrite bool_decide_eq_false_2 by done.
        destruct (status d); intuition congruence. }
    destruct p as [p'|].
    + split.
      * intros [[? ->] ?]. split_and!; [done..|]. by intros ? [= <-].
      * intros (? & ? & Hp). split_and!; [done| |done]. by apply Hp.
    + intuition congruence.
  - intros Hs. unfold getAllTodos. cbn [q_status q_priority].
    rewrite !String_eqb_decide.
    rewrite (bool_decide_eq_false_2 (s = "true")) by done.
    by rewrite (bool_decide_eq_false_2 ("false" = "true")).
Qed.

Lemma getAllTodos_status_parameter_witness :
  getAllTodos (mkQuery (Some "banana") None) (mkEnv 100 101 true) empty_db
  = getAllTodos (mkQuery (Some "false") None) (mkEnv 100 101 true) empty_db.
Proof.
  destruct (getAllTodos_status_parameter
              "banana" None (mkEnv 100 101 true) empty_db)
    as (todos & _ & _ & H).
  - reflexivity.
  - apply H. discriminate.
Defined.

(** ** Operations on one identified record *)

Section Identified.

Variable castObjectId : string -> option ObjectId.

Lemma isValidObjectId_None id :
  castObjectId id = None → isValidObjectId castObjectId id = false.
Proof.
  intros H. unfold isValidObjectId. rewrite H.
  apply bool_decide_eq_false_2. by intros [? ?].
Qed.

Lemma isValidObjectId_Some id i :
  castObjectId id = Some i → isValidObjectId castObjectId id = true.
Proof.
  intros H. unfold isValidObjectId. rewrite H.
  by apply bool_decide_eq_true_2.
Qed.

Lemma getTodoById_unfold id i env db :
  castObjectId id = Some i →
  getTodoById castObjectId id env db =
  if storage_up env
  then match docs db !! i with
       | Some d =>
           mkOutcome
             (json 200 (response true "Todo retrieved successfully" (toJSON d)))
             db [FindOne i]
       | None =>
           mkOutcome (json 404 (response false "Todo not found" JNull))
                     db [FindOne i]
       end
  else mkOutcome
         (json 500 (response false "Server error while retrieving todo" JNull))
         db [FindOne i].
Proof.
  intros H. unfold getTodoById, Todo_findById.
  rewrite (isValidObjectId_Some _ _ H), H. cbn [negb].
  destruct (storage_up env); [|done]. by destruct (docs db !! i).
Qed.

Lemma deleteTodo_unfold id i env db :
  castObjectId id = Some i →
  deleteTodo castObjectId id env db =
  if storage_up env
  then match docs db !! i with
       | Some d =>
           mkOutcome (send 204)
                     {| docs := delete i (docs db); next_id := next_id db |}
                     [FindOneAndDelete i]
       | None =>
           mkOutcome (json 404 (response false "Todo not found" JNull))
                     db [FindOneAndDelete i]
       end
  else mkOutcome
         (json 500 (response false "Server error while deleting todo" JNull))
         db [FindOneAndDelete i].
Proof.
  intros H. unfold deleteTodo, Todo_findByIdAndDelete.
  rewrite (isValidObjectId_Some _ _ H), H. cbn [negb].
  destruct (storage_up env); [|done]. by destruct (docs db !! i).
Qed.

Lemma Object_keys_nil (b : ReqBody) :
  Nat.eqb
    (length (Object_keys
               (mkFields (b_title b) (b_description b)
                         (b_status b) (b_priority b)))) 0
  = bool_decide (¬ supplies_some b).
Proof.
  unfold Object_keys, supplies_some. cbn [f_title f_description f_status f_priority].
  destruct (b_title b), (b_description b), (b_status b), (b_priority b);
    cbn [app length Nat.eqb]; symmetry;
    (apply bool_decide_eq_true_2 || apply bool_decide_eq_false_2);
    rewrite !is_Some_alt; tauto.
Qed.

Lemma update_errors_spec (b : ReqBody) :
  update_errors
    (cast_update
       (mkFields (b_title b) (b_description b) (b_status b) (b_priority b)))
  = update_violations b.
Proof.
  unfold update_errors, cast_update, update_violations, Schema.trim_setter.
  cbn [f_title f_priority]. f_equal.
  - destruct (b_priority b) as [p|]; [|done]. by rewrite priority_errors_spec.
  - destruct (b_title b) as [t|]; [|done].
    cbn [fmap option_fmap option_map]. by rewrite title_errors_spec.
Qed.

Lemma apply_update_spec now (b : ReqBody) (d : Todo) :
  apply_update now
    (cast_update
       (mkFields (b_title b) (b_description b) (b_status b) (b_priority b))) d
  = updated now b d.
Proof.
  unfold apply_update, cast_update, updated, Schema.trim_setter.
  cbn [f_title f_description f_status f_priority].
  by destruct (b_title b), (b_description b), (b_status b), (b_priority b).
Qed.

Lemma updateTodo_unfold id i b env db :
  castObjectId id = Some i →
  updateTodo castObjectId id b env db =
  if bool_decide (¬ supplies_some b)
  then mkOutcome
         (json 400 (response false "No valid fields provided for update" JNull))
         db []
  else
    match update_violations b with
    | (_ :: _) as errors =>
        mkOutcome
          (json 400 (response false (Js.join ". " (messages errors)) JNull))
          db []
    | [] =>
        let u :=
          cast_update
            (mkFields (b_title b) (b_description b)
                      (b_status b) (b_priority b)) in
        if storage_up env
        then match docs db !! i with
             | Some d =>
                 mkOutcome
                   (json 200
                      (response true "Todo updated successfully"
                         (toJSON (updated (timestamp_now env) b d))))
                   {| docs := <[i := updated (timestamp_now env) b d]> (docs db);
                      next_id := next_id db |}
                   [FindOneAndUpdate i u]
             | None =>
                 mkOutcome (json 404 (response false "Todo not found" JNull))
                           db [FindOneAndUpdate i u]
             end
        else mkOutcome
               (json 500 (response false "Server error while updating todo" JNull))
               db [FindOneAndUpdate i u]
    end.
Proof.
  intros H. unfold updateTodo, Todo_findByIdAndUpdate.
  rewrite (isValidObjectId_Some _ _ H), H. cbn [negb].
  assert (∀ A (o : option A),
            match o with Some v => Some v | None => None end = o) as Heta
    by (by intros A []).
  rewrite !Heta, Object_keys_nil.
  case_bool_decide; [done|].
  rewrite update_errors_spec.
  destruct (update_violations b); [|done].
  cbn zeta. destruct (storage_up env); [|done].
  destruct (docs db !! i); [|done].
  by rewrite apply_update_spec.
Qed.

Lemma update_violations_nil (b : ReqBody) :
  update_violations b = [] ↔ supplied_ok b.
Proof.
  unfold update_violations, supplied_ok, title_ok.
  destruct (b_title b) as [t|], (b_priority b) as [p|]; cbn [app];
    repeat match goal with
      | |- context [Nat.eqb ?a ?b] => destruct (Nat.eqb_spec a b)
      | |- context [Nat.ltb ?a ?b] => destruct (Nat.ltb_spec a b)
      | |- context [bool_decide ?P] => destruct (bool_decide_reflect P)
      end; cbn [app];
    split; try done; try (intros [H1 H2]);
    try (specialize (H1 _ eq_refl)); try (specialize (H2 _ eq_refl));
    try lia; try done;
    intros _; split; intros ? [= <-]; done || lia.
Qed.

Lemma overlay_ok (b : ReqBody) (d : Todo) :
  title_ok (title d) → priority_ok (priority d) →
  title_ok (title (overlay b d)) ∧ priority_ok (priority (overlay b d))
  ↔ supplied_ok b.
Proof.
  intros Ht Hp. unfold overlay, supplied_ok. cbn [title priority].
  destruct (b_title b) as [t|], (b_priority b) as [p|]; cbn [default];
    split; try (intros [H1 H2]); try split;
    try (intros ? [= <-]); try done; eauto.
Qed.

(** On a body whose values can all be cast, the handler is the handler on
    the cast body. *)
Lemma Raw_updateTodo_typed id (b : RawBody) (tb : ReqBody) env db :
  typed b = Some tb →
  Raw.updateTodo castObjectId id b env db
  = updateTodo castObjectId id tb env db.
Proof.
  destruct b as [t d s p rest]. unfold typed, cast.
  cbn [raw_title raw_description raw_status raw_priority raw_rest].
  destruct t as [[?|?]|], d as [[?|?]|], s as [[?|?]|], p as [[?|?]|];
    intros [= <-]; reflexivity.
Qed.

(** A value the cast refuses ends the update in the catch-all branch: 500,
    nothing stored, no storage command. *)
Lemma Raw_updateTodo_uncastable id i (b : RawBody) env db :
  castObjectId id = Some i →
  typed b = None →
  Raw.updateTodo castObjectId id b env db
  = mkOutcome
      (json 500 (response false "Server error while updating todo" JNull))
      db [].
Proof.
  intros Hi. unfold Raw.updateTodo.
  rewrite (isValidObjectId_Some _ _ Hi). cbn [negb].
  destruct b as [t d s p rest]. unfold typed, cast.
  cbn [raw_title raw_description raw_status raw_priority raw_rest].
  destruct t as [[?|?]|], d as [[?|?]|], s as [[?|?]|], p as [[?|?]|];
    intros [=]; reflexivity.
Qed.

(** The three ways an update on any body can go. *)
Lemma Raw_updateTodo_cases id (b : RawBody) env db :
  (∃ tb, typed b = Some tb
         ∧ Raw.updateTodo castObjectId id b env db
           = updateTodo castObjectId id tb env db)
  ∨ Raw.updateTodo castObjectId id b env db = bad_id id db
  ∨ (typed b = None
     ∧ Raw.updateTodo castObjectId id b env db
       = mkOutcome
           (json 500 (response false "Server error while updating todo" JNull))
           db []).
Proof.
  destruct (typed b) as [tb|] eqn:Htb.
  - left. exists tb. split; [done|]. by apply Raw_updateTodo_typed.
  - right. destruct (castObjectId id) as [i|] eqn:Hi.
    + right. split; [done|]. by apply (Raw_updateTodo_uncastable _ i).
    + left. unfold Raw.updateTodo. by rewrite (isValidObjectId_None _ Hi).
Qed.

Lemma typed_untyped (b : ReqBody) : typed (untyped b) = Some b.
Proof. by destruct b as [[?|] [?|] [?|] [?|] ?]. Qed.

(** C4, as amended.  A malformed identifier is answered with 400 by
    get-by-id, update and delete alike, whatever the body and the store hold
    and whether or not storage is reachable, with the store untouched and no
    storage command sent.  A well-formed identifier with no record is
    answered, when the storage call goes through, with 404 by get-by-id and
    by delete, and by update when every value the body supplies can be cast
    to its field's type, the body supplies at least one whitelisted field
    and every supplied field is acceptable.  An update that supplies no
    whitelisted field, or a castable field that is not acceptable, is
    answered with 400 instead, and one that supplies a value the cast
    refuses is answered with 500; neither reaches storage. *)
Theorem identifier_outcomes (id : string) (b : RawBody) (env : Env) (db : Db) :
  (castObjectId id = None →
   getTodoById castObjectId id env db = bad_id id db
   ∧ Raw.updateTodo castObjectId id b env db = bad_id id db
   ∧ deleteTodo castObjectId id env db = bad_id id db)
  ∧ (∀ i, castObjectId id = Some i → docs db !! i = None →
          storage_up env = true →
     res (getTodoById castObjectId id env db)
       = json 404 (response false "Todo not found" JNull)
     ∧ db_after (getTodoById castObjectId id env db) = db
     ∧ res (deleteTodo castObjectId id env db)
       = json 404 (response false "Todo not found" JNull)
     ∧ db_after (deleteTodo castObjectId id env db) = db
     ∧ (∀ tb, typed b = Some tb → supplies_some tb → supplied_ok tb →
        res (Raw.updateTodo castObjectId id b env db)
          = json 404 (response false "Todo not found" JNull)
        ∧ db_after (Raw.updateTodo castObjectId id b env db) = db)
     ∧ (∀ tb, typed b = Some tb → ¬ supplies_some tb →
        Raw.updateTodo castObjectId id b env db
        = mkOutcome
            (json 400
               (response false "No valid fields provided for update" JNull))
            db [])
     ∧ (∀ tb, typed b = Some tb → supplies_some tb → ¬ supplied_ok tb →
        (∃ m, res (Raw.updateTodo castObjectId id b env db)
              = json 400 (response false m JNull))
        ∧ db_after (Raw.updateTodo castObjectId id b env db) = db
        ∧ calls (Raw.updateTodo castObjectId id b env db) = [])
     ∧ (typed b = None →
        Raw.updateTodo castObjectId id b env db
        = mkOutcome
            (json 500
               (response false "Server error while updating todo" JNull))
            db [])).
Proof.
  split.
  - intros H. unfold getTodoById, Raw.updateTodo, deleteTodo.
    by rewrite (isValidObjectId_None _ H).
  - intros i Hi Hnone Hup.
    rewrite (getTodoById_unfold _ _ _ _ Hi), (deleteTodo_unfold _ _ _ _ Hi),
      Hup, Hnone.
    split_and!; try reflexivity.
    + intros tb Htb Hsome Hok.
      rewrite (Raw_updateTodo_typed _ _ _ _ _ Htb),
        (updateTodo_unfold _ _ _ _ _ Hi), Hup, Hnone.
      rewrite bool_decide_eq_false_2 by tauto.
      rewrite (proj2 (update_violations_nil tb) Hok). cbn zeta.
      split; reflexivity.
    + intros tb Htb Hnone'.
      rewrite (Raw_updateTodo_typed _ _ _ _ _ Htb),
        (updateTodo_unfold _ _ _ _ _ Hi).
      by rewrite bool_decide_eq_true_2.
    + intros tb Htb Hsome Hbad.
      rewrite (Raw_updateTodo_typed _ _ _ _ _ Htb),
        (updateTodo_unfold _ _ _ _ _ Hi).
      rewrite bool_decide_eq_false_2 by tauto.
      rewrite <- update_violations_nil in Hbad.
      destruct (update_violations tb); [done|].
      split_and!; [by eexists|done..].
    + intros Hnone'. by apply (Raw_updateTodo_uncastable _ i).
Qed.

(** C7.  An update whose identifier is well formed and whose body carries
    none of title, description, status, priority is answered with 400 and
    the message "No valid fields provided for update"; the store is
    untouched and no storage command is sent. *)
Theorem updateTodo_no_fields (id : string) (b : ReqBody) (env : Env) (db : Db) :
  is_Some (castObjectId id) →
  b_title b = None → b_description b = None →
  b_status b = None → b_priority b = None →
  updateTodo castObjectId id b env db =
  mkOutcome
    (json 400 (response false "No valid fields provided for update" JNull))
    db [].
Proof.
  intros [i Hi] Ht Hd Hs Hp. rewrite (updateTodo_unfold _ _ _ _ _ Hi).
  rewrite bool_decide_eq_true_2; [done|].
  unfold supplies_some. rewrite Ht, Hd, Hs, Hp, !is_Some_alt. tauto.
Qed.

(** C5, as amended.  Take a stored record that satisfies the title and
    priority rules and an update addressed to it, with storage reachable.
    If the body supplies a value the cast to its field's type refuses, the
    answer is 500, the store is unchanged and no storage command is sent.
    Otherwise take the body at the types of the schema, supplying at least
    one whitelisted field.  If the supplied fields laid over the stored
    record break a rule, the answer is 400 with the joined violation
    messages, the priority's first, and the store is unchanged.  If they
    break none, the answer is 200 with the merged record, which replaces
    the stored one and carries the current reading as updatedAt. *)
Theorem updateTodo_merge_validated
    (id : string) (i : ObjectId) (b : RawBody) (env : Env) (db : Db)
    (d : Todo) :
  castObjectId id = Some i →
  docs db !! i = Some d →
  title_ok (title d) → priority_ok (priority d) →
  storage_up env = true →
  (typed b = None →
   Raw.updateTodo castObjectId id b env db
   = mkOutcome
       (json 500 (response false "Server error while updating todo" JNull))
       db [])
  ∧ (∀ tb, typed b = Some tb → supplies_some tb →
     (¬ (title_ok (title (overlay tb d))
         ∧ priority_ok (priority (overlay tb d))) →
      update_violations tb ≠ []
      ∧ res (Raw.updateTodo castObjectId id b env db)
        = json 400
            (response false
               (Js.join ". " (messages (update_violations tb))) JNull)
      ∧ db_after (Raw.updateTodo castObjectId id b env db) = db)
     ∧ (title_ok (title (overlay tb d))
        ∧ priority_ok (priority (overlay tb d)) →
        res (Raw.updateTodo castObjectId id b env db)
          = json 200
              (response true "Todo updated successfully"
                 (toJSON (updated (timestamp_now env) tb d)))
        ∧ docs (db_after (Raw.updateTodo castObjectId id b env db))
          = <[i := updated (timestamp_now env) tb d]> (docs db)
        ∧ next_id (db_after (Raw.updateTodo castObjectId id b env db))
          = next_id db
        ∧ updatedAt (updated (timestamp_now env) tb d) = timestamp_now env
        ∧ title_ok (title (updated (timestamp_now env) tb d))
        ∧ priority_ok (priority (updated (timestamp_now env) tb d)))).
Proof.
  intros Hi Hd Ht Hp Hup.
  split; [by apply (Raw_updateTodo_uncastable _ i)|].
  intros tb Htb Hsome.
  rewrite (Raw_updateTodo_typed _ _ _ _ _ Htb),
    (updateTodo_unfold _ _ _ _ _ Hi).
  rewrite bool_decide_eq_false_2 by tauto.
  rewrite (overlay_ok tb d Ht Hp), <- update_violations_nil.
  split.
  - intros Hne. split; [done|].
    by destruct (update_violations tb).
  - intros Hnil. rewrite Hnil. cbn zeta. rewrite Hup, Hd.
    cbn [res db_after docs next_id]. split_and!; try reflexivity.
    + apply update_violations_nil in Hnil as [Hbt _].
      unfold updated. cbn [title].
      destruct (b_title tb) as [t|]; [|done].
      apply title_ok_trim. by apply Hbt.
    + apply update_violations_nil in Hnil as [_ Hbp].
      unfold updated. cbn [priority].
      destruct (b_priority tb) as [p|]; [|done]. by apply Hbp.
Qed.

(** C6.  An update reads nothing of the body but title, description,
    status and priority: any other member, whatever its name, leaves the
    outcome as it is.  No update adds or removes a record or moves the
    identifier counter; a record other than the one addressed is left as it
    is; and the record addressed keeps its id and createdAt and every
    whitelisted field the body does not supply. *)
Theorem updateTodo_whitelist (id : string) (b : ReqBody) (env : Env) (db : Db) :
  (∀ rest,
     updateTodo castObjectId id
       (mkBody (b_title b) (b_description b) (b_status b) (b_priority b) rest)
       env db
     = updateTodo castObjectId id b env db)
  ∧ next_id (db_after (updateTodo castObjectId id b env db)) = next_id db
  ∧ (∀ j, is_Some (docs (db_after (updateTodo castObjectId id b env db)) !! j)
          ↔ is_Some (docs db !! j))
  ∧ (∀ j d d',
       docs db !! j = Some d →
       docs (db_after (updateTodo castObjectId id b env db)) !! j = Some d' →
       _id d' = _id d
       ∧ createdAt d' = createdAt d
       ∧ (b_title b = None → title d' = title d)
       ∧ (b_description b = None → description d' = description d)
       ∧ (b_status b = None → status d' = status d)
       ∧ (b_priority b = None → priority d' = priority d)
       ∧ (castObjectId id ≠ Some j → d' = d)).
Proof.
  split; [by intros rest|].
  destruct (castObjectId id) as [i|] eqn:Hi.
  2:{ unfold updateTodo. rewrite (isValidObjectId_None _ Hi). cbn.
      split_and!; [done..|]. intros j d d' H1 H2.
      assert (d' = d) as -> by congruence. done. }
  assert (∀ d0 : Todo, docs db !! i = Some d0 →
          ∀ j d d', docs db !! j = Some d →
            <[i := updated (timestamp_now env) b d0]> (docs db) !! j = Some d' →
            _id d' = _id d
            ∧ createdAt d' = createdAt d
            ∧ (b_title b = None → title d' = title d)
            ∧ (b_description b = None → description d' = description d)
            ∧ (b_status b = None → status d' = status d)
            ∧ (b_priority b = None → priority d' = priority d)
            ∧ (Some i ≠ Some j → d' = d)) as Hins.
  { intros d0 Hd0 j d d' Hj Hj'.
    destruct (decide (i = j)) as [->|Hne].
    - rewrite lookup_insert_eq in Hj'. injection Hj' as <-.
      assert (d0 = d) as -> by congruence.
      unfold updated. cbn.
      split_and!; try done; by intros ->.
    - rewrite lookup_insert_ne in Hj' by done.
      assert (d' = d) as -> by congruence. done. }
  assert (∀ j d d', docs db !! j = Some d → docs db !! j = Some d' →
            _id d' = _id d
            ∧ createdAt d' = createdAt d
            ∧ (b_title b = None → title d' = title d)
            ∧ (b_description b = None → description d' = description d)
            ∧ (b_status b = None → status d' = status d)
            ∧ (b_priority b = None → priority d' = priority d)
            ∧ (Some i ≠ Some j → d' = d)) as Hsame.
  { intros j d d' H1 H2. assert (d' = d) as -> by congruence. done. }
  rewrite (updateTodo_unfold _ _ _ _ _ Hi).
  case_bool_decide; [by split_and!|].
  destruct (update_violations b); [|by split_and!].
  cbn zeta. destruct (storage_up env); [|by split_and!].
  destruct (docs db !! i) as [d0|] eqn:Hd0; [|by split_and!].
  cbn [db_after docs next_id]. split_and!; [done| |by apply Hins].
  intros j. destruct (decide (i = j)) as [->|Hne].
  - rewrite lookup_insert_eq, Hd0. split; eauto.
  - by rewrite lookup_insert_ne.
Qed.

End Identified.

Example milk_db_created :
  db_after (createTodo (mkBody (Some "Buy milk") None None None [])
                       (mkEnv 100 101 true) empty_db) = milk_db.
Proof. reflexivity. Qed.

Lemma identifier_outcomes_witness :
  getTodoById Bson.ofHexString "42" (mkEnv 100 101 false) milk_db
    = bad_id "42" milk_db
  ∧ res (deleteTodo Bson.ofHexString "507f1f77bcf86cd799439011"
                    (mkEnv 100 101 true) milk_db)
    = json 404 (response false "Todo not found" JNull)
  ∧ res (Raw.updateTodo Bson.ofHexString "507f1f77bcf86cd799439011"
           (mkRawBody None None (Some (Castable true)) None [])
           (mkEnv 100 101 true) milk_db)
    = json 404 (response false "Todo not found" JNull)
  ∧ res (Raw.updateTodo Bson.ofHexString "507f1f77bcf86cd799439011"
           (mkRawBody None None (Some (Uncastable (JStr "banana"))) None [])
           (mkEnv 100 101 true) milk_db)
    = json 500 (response false "Server error while updating todo" JNull).
Proof.
  pose proof (identifier_outcomes Bson.ofHexString "42"
                (mkRawBody None None None None [])
                (mkEnv 100 101 false) milk_db)
    as [H400 _].
  pose proof (identifier_outcomes Bson.ofHexString "507f1f77bcf86cd799439011"
                (mkRawBody None None (Some (Castable true)) None [])
                (mkEnv 100 101 true) milk_db) as [_ H404].
  pose proof (identifier_outcomes Bson.ofHexString "507f1f77bcf86cd799439011"
                (mkRawBody None None (Some (Uncastable (JStr "banana"))) None [])
                (mkEnv 100 101 true) milk_db) as [_ H500].
  destruct (H404 _ eq_refl eq_refl eq_refl) as (_ & _ & Hd & _ & Hu & _).
  destruct (H500 _ eq_refl eq_refl eq_refl) as (_ & _ & _ & _ & _ & _ & _ & Hc).
  split_and!.
  - apply H400. reflexivity.
  - exact Hd.
  - apply (Hu (mkBody None None (Some true) None [])); [reflexivity| |].
    + unfold supplies_some. cbn. eauto.
    + split; intros ? [=].
  - by rewrite (Hc eq_refl).
Defined.

(** C4 as stated fails for update: with a well-formed identifier that no
    record carries, an update whose body has no whitelisted field, or whose
    title is too short, is answered with 400, not 404. *)
Lemma updateTodo_absent_record_400 :
  (∃ i, Bson.ofHexString "507f1f77bcf86cd799439011" = Some i
        ∧ docs milk_db !! i = None)
  ∧ storage_up (mkEnv 100 101 true) = true
  ∧ res (updateTodo Bson.ofHexString "507f1f77bcf86cd799439011"
           (mkBody None None None None []) (mkEnv 100 101 true) milk_db)
    = json 400 (response false "No valid fields provided for update" JNull)
  ∧ res (updateTodo Bson.ofHexString "507f1f77bcf86cd799439011"
           (mkBody (Some "ab") None None None []) (mkEnv 100 101 true) milk_db)
    = json 400
        (response false "Title must be at least 3 characters long" JNull).
Proof.
  split_and!; try reflexivity.
  eexists. split; [vm_compute; reflexivity | reflexivity].
Qed.

Lemma updateTodo_no_fields_witness :
  updateTodo Bson.ofHexString "000000000000000000000000"
    (mkBody None None None None [("id", JStr "x"); ("createdAt", JNum 0)])
    (mkEnv 200 201 true) milk_db
  = mkOutcome
      (json 400 (response false "No valid fields provided for update" JNull))
      milk_db [].
Proof.
  apply (updateTodo_no_fields Bson.ofHexString); try reflexivity.
  vm_compute. eauto.
Defined.

Lemma updateTodo_merge_validated_witness :
  res (Raw.updateTodo Bson.ofHexString "000000000000000000000000"
         (mkRawBody None None (Some (Castable true)) None [])
         (mkEnv 200 201 true) milk_db)
  = json 200
      (response true "Todo updated successfully"
         (toJSON (mkTodo 0%N "Buy milk" EmptyString true "medium" 100 201)))
  ∧ res (Raw.updateTodo Bson.ofHexString "000000000000000000000000"
           (mkRawBody (Some (Castable "ab")) None None
                      (Some (Castable "urgent")) [])
           (mkEnv 200 201 true) milk_db)
    = json 400
        (response false
           ("Priority must be one of " +:+ Js.dq +:+ "low" +:+ Js.dq +:+ ", "
            +:+ Js.dq +:+ "medium" +:+ Js.dq +:+ ", or "
            +:+ Js.dq +:+ "high" +:+ Js.dq
            +:+ ". Title must be at least 3 characters long")
           JNull).
Proof.
  assert (title_ok (title milk)) as Ht by (unfold title_ok; vm_compute; lia).
  assert (priority_ok (priority milk)) as Hp by (vm_compute; set_solver).
  pose proof (updateTodo_merge_validated Bson.ofHexString
                "000000000000000000000000" 0%N
                (mkRawBody None None (Some (Castable true)) None [])
                (mkEnv 200 201 true) milk_db milk
                eq_refl eq_refl Ht Hp eq_refl) as [_ H1].
  pose proof (updateTodo_merge_validated Bson.ofHexString
                "000000000000000000000000" 0%N
                (mkRawBody (Some (Castable "ab")) None None
                           (Some (Castable "urgent")) [])
                (mkEnv 200 201 true) milk_db milk
                eq_refl eq_refl Ht Hp eq_refl) as [_ H2].
  split.
  - destruct (H1 (mkBody None None (Some true) None []) eq_refl)
      as [_ H200].
    + unfold supplies_some. cbn. eauto.
    + apply H200. done.
  - destruct (H2 (mkBody (Some "ab") None None (Some "urgent") []) eq_refl)
      as [H400 _].
    + unfold supplies_some. cbn. eauto.
    + apply H400. intros [H _]. unfold title_ok in H. vm_compute in H. lia.
Defined.

(** C5 as stated fails for an update that supplies a value the cast
    refuses: the stored record satisfies the rules and the body supplies
    neither title nor priority, so the overlay breaks no rule, yet the
    answer is 500 and the stored record is not replaced. *)
Lemma updateTodo_uncastable_500 :
  Bson.ofHexString "000000000000000000000000" = Some 0%N
  ∧ docs milk_db !! 0%N = Some milk
  ∧ title_ok (title milk) ∧ priority_ok (priority milk)
  ∧ storage_up (mkEnv 200 201 true) = true
  ∧ Raw.updateTodo Bson.ofHexString "000000000000000000000000"
      (mkRawBody None None (Some (Uncastable (JStr "banana"))) None [])
      (mkEnv 200 201 true) milk_db
    = mkOutcome
        (json 500 (response false "Server error while updating todo" JNull))
        milk_db [].
Proof.
  split_and!; try reflexivity.
  - unfold title_ok. vm_compute. lia.
  - apply (bool_decide_eq_true_1 (priority_ok "medium")). reflexivity.
Qed.

(** ** All five operations *)

Section Routed.

Variable castObjectId : string -> option ObjectId.

Lemma response_envelope (success : bool) (message : string) (data : JsVal) :
  is_data data → is_envelope (response success message data).
Proof. intros H. exists success, message, data. by split. Qed.

Lemma is_data_null : is_data JNull.
Proof. by left. Qed.

Lemma is_data_record (d : Todo) : is_data (toJSON d).
Proof. right; left. by exists d. Qed.

Lemma is_data_list (ds : list Todo) : is_data (JArr (toJSON <$> ds)).
Proof. right; right. by exists ds. Qed.

Create HintDb envelope.

#[local] Hint Resolve response_envelope is_data_null is_data_record
  is_data_list : envelope.

Ltac enveloped :=
  left; eexists; split; [reflexivity | auto with envelope].

(** C8, as amended.  Whatever the request, the environment and the store,
    the response either has a body that is the envelope (a boolean success,
    a string message, and data that is a record, a list of records or
    null), or it is the 204 of a delete that found and removed its record,
    which has no body at all. *)
Theorem router_envelope (r : Request) (env : Env) (db : Db) :
  (∃ v, body (res (router castObjectId r env db)) = Some v ∧ is_envelope v)
  ∨ (∃ id i d,
       r = DELETE_todo id
       ∧ castObjectId id = Some i
       ∧ docs db !! i = Some d
       ∧ res (router castObjectId r env db) = send 204
       ∧ docs (db_after (router castObjectId r env db)) = delete i (docs db)).
Proof.
  destruct r as [b|q|id|id b|id]; cbn [router].
  - rewrite createTodo_unfold.
    destruct (create_violations b); [|enveloped].
    cbn zeta. destruct (storage_up env && _); enveloped.
  - unfold getAllTodos, Todo_find_sort. destruct (storage_up env); enveloped.
  - destruct (castObjectId id) as [i|] eqn:Hi.
    + rewrite (getTodoById_unfold _ _ _ _ _ Hi).
      destruct (storage_up env); [|enveloped].
      destruct (docs db !! i); enveloped.
    + unfold getTodoById. rewrite (isValidObjectId_None _ _ Hi). enveloped.
  - destruct (castObjectId id) as [i|] eqn:Hi.
    + rewrite (updateTodo_unfold _ _ _ _ _ _ Hi).
      case_bool_decide; [enveloped|].
      destruct (update_violations b); [|enveloped].
      cbn zeta. destruct (storage_up env); [|enveloped].
      destruct (docs db !! i); enveloped.
    + unfold updateTodo. rewrite (isValidObjectId_None _ _ Hi). enveloped.
  - destruct (castObjectId id) as [i|] eqn:Hi.
    + rewrite (deleteTodo_unfold _ _ _ _ _ Hi).
      destruct (storage_up env); [|enveloped].
      destruct (docs db !! i) as [d|] eqn:Hd; [|enveloped].
      right. by exists id, i, d.
    + unfold deleteTodo. rewrite (isValidObjectId_None _ _ Hi). enveloped.
Qed.

(** *** Invariants *)

Lemma store_ok_mono (now now' : Z) (db : Db) :
  store_ok now db → now <= now' → store_ok now' db.
Proof.
  intros H Hle i d Hd. destruct (H i d Hd) as (?&?&?&?).
  split_and!; [done..|lia].
Qed.

Lemma continues_refl (now : Z) (db : Db) : continues db db.
Proof.
  split; [lia|]. intros i d' _ Hd'. exists d'. split_and!; [done..|lia].
Qed.

Lemma continues_trans (db1 db2 db3 : Db) :
  continues db1 db2 → continues db2 db3 → continues db1 db3.
Proof.
  intros [Hn12 H12] [Hn23 H23]. split; [lia|].
  intros i d3 Hi Hd3.
  destruct (H23 i d3 ltac:(lia) Hd3) as (d2 & Hd2 & ? & ? & ?).
  destruct (H12 i d2 Hi Hd2) as (d1 & Hd1 & ? & ? & ?).
  exists d1. split_and!; [done|congruence..|lia].
Qed.

Lemma create_violations_nil (b : ReqBody) :
  create_violations b = [] →
  (∃ t, b_title b = Some t ∧ title_ok t)
  ∧ priority_ok (default "medium" (b_priority b)).
Proof.
  unfold create_violations, title_ok. intros H.
  apply app_eq_nil in H as [Ht Hp]. split.
  - destruct (b_title b) as [t|]; [|done]. exists t. split; [done|].
    destruct (Nat.eqb_spec (String.length (Js.trim t)) 0); [done|].
    destruct (Nat.ltb_spec (String.length (Js.trim t)) 3); [done|lia].
  - destruct (b_priority b) as [p|]; [|apply priority_default_ok].
    cbn [default]. by case_bool_decide.
Qed.

Lemma createTodo_store_ok (now : Z) (b : ReqBody) (env : Env) (db : Db) :
  store_ok now db →
  now <= date_now env <= timestamp_now env →
  store_ok (timestamp_now env) (db_after (createTodo b env db))
  ∧ continues db (db_after (createTodo b env db)).
Proof.
  intros Hok Hclock.
  assert (store_ok (timestamp_now env) db) as Hok' by (eapply store_ok_mono; [done|lia]).
  pose proof (continues_refl now db) as Hrefl.
  rewrite createTodo_unfold.
  destruct (create_violations b) eqn:Hv; [|done].
  cbn zeta. destruct (storage_up env); [|done].
  case_bool_decide as Hfresh; [|done].
  cbn [andb db_after].
  apply create_violations_nil in Hv as [(t & Ht & Htok) Hp].
  split.
  - intros i d. cbn [docs next_id].
    destruct (decide (next_id db = i)) as [<-|Hne].
    + rewrite lookup_insert_eq. intros [= <-]. cbn [_id updatedAt].
      split_and!; [done|lia| |lia].
      unfold record_ok. cbn [title priority createdAt updatedAt].
      rewrite Ht. cbn [fmap option_fmap option_map default].
      split_and!; [by apply title_ok_trim|done|lia].
    + rewrite lookup_insert_ne by done. intros Hd.
      destruct (Hok' i d Hd) as (?&?&?&?). split_and!; [done|lia|done..].
  - split; [cbn [next_id]; lia|].
    intros i d' Hi. cbn [docs].
    rewrite lookup_insert_ne by lia. intros Hd'.
    exists d'. split_and!; [done..|lia].
Qed.

Lemma updateTodo_store_ok
    (now : Z) (id : string) (b : ReqBody) (env : Env) (db : Db) :
  store_ok now db →
  now <= date_now env <= timestamp_now env →
  store_ok (timestamp_now env) (db_after (updateTodo castObjectId id b env db))
  ∧ continues db (db_after (updateTodo castObjectId id b env db)).
Proof.
  intros Hok Hclock.
  assert (store_ok (timestamp_now env) db) as Hok' by (eapply store_ok_mono; [done|lia]).
  pose proof (continues_refl now db) as Hrefl.
  destruct (castObjectId id) as [i|] eqn:Hi.
  2:{ unfold updateTodo. by rewrite (isValidObjectId_None _ _ Hi). }
  rewrite (updateTodo_unfold _ _ _ _ _ _ Hi).
  case_bool_decide; [done|].
  destruct (update_violations b) eqn:Hv; [|done].
  cbn zeta. destruct (storage_up env); [|done].
  destruct (docs db !! i) as [d0|] eqn:Hd0; [|done].
  cbn [db_after].
  apply update_violations_nil in Hv as [Hbt Hbp].
  destruct (Hok i d0 Hd0) as (Hid & Hlt & (Ht0 & Hp0 & Hc0) & Hu0).
  split.
  - intros j d. cbn [docs next_id].
    destruct (decide (i = j)) as [<-|Hne].
    + rewrite lookup_insert_eq. intros [= <-].
      unfold updated, record_ok. cbn [_id title priority createdAt updatedAt].
      split_and!; [done|done| | |lia|lia].
      * destruct (b_title b) as [t|]; [|done]. apply title_ok_trim. by apply Hbt.
      * destruct (b_priority b) as [p|]; [|done]. by apply Hbp.
    + rewrite lookup_insert_ne by done. apply Hok'.
  - split; [cbn [next_id]; lia|].
    intros j d' Hj. cbn [docs].
    destruct (decide (i = j)) as [<-|Hne].
    + rewrite lookup_insert_eq. intros [= <-]. exists d0.
      unfold updated. cbn [_id createdAt updatedAt]. split_and!; [done..|lia].
    + rewrite lookup_insert_ne by done. intros Hd'.
      exists d'. split_and!; [done..|lia].
Qed.

Lemma deleteTodo_store_ok (now : Z) (id : string) (env : Env) (db : Db) :
  store_ok now db →
  now <= date_now env <= timestamp_now env →
  store_ok (timestamp_now env) (db_after (deleteTodo castObjectId id env db))
  ∧ continues db (db_after (deleteTodo castObjectId id env db)).
Proof.
  intros Hok Hclock.
  assert (store_ok (timestamp_now env) db) as Hok' by (eapply store_ok_mono; [done|lia]).
  pose proof (continues_refl now db) as Hrefl.
  destruct (castObjectId id) as [i|] eqn:Hi.
  2:{ unfold deleteTodo. by rewrite (isValidObjectId_None _ _ Hi). }
  rewrite (deleteTodo_unfold _ _ _ _ _ Hi).
  destruct (storage_up env); [|done].
  destruct (docs db !! i) as [d0|] eqn:Hd0; [|done].
  cbn [db_after]. split.
  - intros j d. cbn [docs next_id]. intros Hd.
    apply lookup_delete_Some in Hd as [_ Hd]. by apply Hok'.
  - split; [cbn [next_id]; lia|].
    intros j d' Hj. cbn [docs]. intros Hd'.
    apply lookup_delete_Some in Hd' as [_ Hd'].
    exists d'. split_and!; [done..|lia].
Qed.

Lemma reads_keep_store (r : Request) (env : Env) (db : Db) :
  match r with GET_todos _ | GET_todo _ => True | _ => False end →
  db_after (router castObjectId r env db) = db.
Proof.
  destruct r as [b|q|id|id b|id]; try done; intros _; cbn [router].
  - unfold getAllTodos, Todo_find_sort. by destruct (storage_up env).
  - destruct (castObjectId id) as [i|] eqn:Hi.
    + rewrite (getTodoById_unfold _ _ _ _ _ Hi).
      destruct (storage_up env); [|done]. by destruct (docs db !! i).
    + unfold getTodoById. by rewrite (isValidObjectId_None _ _ Hi).
Qed.

Lemma router_store_ok (now : Z) (r : Request) (env : Env) (db : Db) :
  store_ok now db →
  now <= date_now env <= timestamp_now env →
  store_ok (timestamp_now env) (db_after (router castObjectId r env db))
  ∧ continues db (db_after (router castObjectId r env db)).
Proof.
  intros Hok Hclock.
  destruct r as [b|q|id|id b|id].
  - by apply (createTodo_store_ok now).
  - rewrite reads_keep_store by done.
    split; [eapply store_ok_mono; [done|lia] | by apply (continues_refl now)].
  - rewrite reads_keep_store by done.
    split; [eapply store_ok_mono; [done|lia] | by apply (continues_refl now)].
  - by apply (updateTodo_store_ok now).
  - by apply (deleteTodo_store_ok now).
Qed.

Lemma clock_monotone_app (t : Z) (pre post : list (Request * Env)) :
  clock_monotone t (pre ++ post) ↔
  clock_monotone t pre ∧ clock_monotone (clock_end t pre) post.
Proof.
  revert t. induction pre as [|[r env] pre IH]; intros t; cbn; [tauto|].
  rewrite IH. tauto.
Qed.

Lemma run_store_ok (rs : list (Request * Env)) (t : Z) (db : Db) :
  store_ok t db → clock_monotone t rs →
  store_ok (clock_end t rs) (run castObjectId rs db)
  ∧ continues db (run castObjectId rs db).
Proof.
  revert t db. induction rs as [|[r env] rs IH]; intros t db Hok Hclock.
  - cbn. split; [done | by apply (continues_refl t)].
  - cbn in Hclock |- *. destruct Hclock as [Hnow Hrest].
    destruct (router_store_ok t r env db Hok Hnow) as [Hok1 Hc1].
    destruct (IH _ _ Hok1 Hrest) as [Hok2 Hc2].
    split; [done | by eapply continues_trans].
Qed.

Lemma empty_db_ok (t : Z) : store_ok t empty_db.
Proof. intros i d. cbn. by rewrite lookup_empty. Qed.

(** C9.  Start from the empty store and serve any sequence of requests
    while the clock never goes back.  At every point afterwards each stored
    record carries its own key as id, has a title of trim-length at least 3,
    a priority among low, medium, high, and createdAt no later than
    updatedAt.  Moreover a record present at one point and still present at
    a later one has the same id and createdAt, and its updatedAt has not
    decreased. *)
Theorem invariants_preserved (t0 : Z) (pre post : list (Request * Env)) :
  clock_monotone t0 (pre ++ post) →
  (∀ i d,
     docs (run castObjectId post (run castObjectId pre empty_db)) !! i = Some d →
     _id d = i
     ∧ title_ok (title d)
     ∧ priority_ok (priority d)
     ∧ createdAt d <= updatedAt d)
  ∧ (∀ i d d',
       docs (run castObjectId pre empty_db) !! i = Some d →
       docs (run castObjectId post (run castObjectId pre empty_db)) !! i
         = Some d' →
       _id d' = _id d
       ∧ createdAt d' = createdAt d
       ∧ updatedAt d <= updatedAt d').
Proof.
  intros Hclock. apply clock_monotone_app in Hclock as [Hpre Hpost].
  destruct (run_store_ok pre t0 empty_db (empty_db_ok t0) Hpre) as [Hok1 _].
  destruct (run_store_ok post _ _ Hok1 Hpost) as [Hok2 [_ Hcont]].
  split.
  - intros i d Hd. destruct (Hok2 i d Hd) as (? & _ & (? & ? & ?) & _). done.
  - intros i d d' Hd Hd'.
    destruct (Hok1 i d Hd) as (_ & Hlt & _).
    destruct (Hcont i d' Hlt Hd') as (d0 & Hd0 & ? & ? & ?).
    unfold ObjectId in *. rewrite Hd in Hd0. injection Hd0 as <-. done.
Qed.

End Routed.

(** C8 as stated fails: a delete that finds its record answers 204 with no
    body, so that outcome is not the envelope. *)
Lemma deleteTodo_found_has_no_body :
  docs milk_db !! 0%N = Some milk
  ∧ res (router Bson.ofHexString (DELETE_todo "000000000000000000000000")
                (mkEnv 200 201 true) milk_db) = send 204
  ∧ body (res (router Bson.ofHexString
                      (DELETE_todo "000000000000000000000000")
                      (mkEnv 200 201 true) milk_db)) = None
  ∧ ¬ (∃ v, body (res (router Bson.ofHexString
                              (DELETE_todo "000000000000000000000000")
                              (mkEnv 200 201 true) milk_db)) = Some v
            ∧ is_envelope v).
Proof.
  split_and!; try reflexivity.
  intros (v & Hv & _). vm_compute in Hv. discriminate.
Qed.

Lemma invariants_preserved_witness :
  ∃ d',
    docs (run Bson.ofHexString
            [(PATCH_todo "000000000000000000000000"
                         (mkBody (Some "  Buy oat milk ") None (Some true)
                                 None [("createdAt", JNum 0)]),
              mkEnv 200 201 true)]
            (run Bson.ofHexString
               [(POST_todos (mkBody (Some "Buy milk") None None None []),
                 mkEnv 100 101 true)]
               empty_db)) !! 0%N = Some d'
    ∧ title d' = "Buy oat milk"
    ∧ _id d' = 0%N
    ∧ createdAt d' = 100
    ∧ 101 <= updatedAt d'.
Proof.
  destruct (invariants_preserved Bson.ofHexString 0
              [(POST_todos (mkBody (Some "Buy milk") None None None []),
                mkEnv 100 101 true)]
              [(PATCH_todo "000000000000000000000000"
                           (mkBody (Some "  Buy oat milk ") None (Some true)
                                   None [("createdAt", JNum 0)]),
                mkEnv 200 201 true)]) as [_ Hkeep].
  - cbn. lia.
  - eexists. split; [vm_compute; reflexivity|]. split; [reflexivity|].
    apply (Hkeep 0%N milk); vm_compute; reflexivity.
Defined.

(** * Further properties of the handlers *)

Section Composed.

Variable castObjectId : string -> option ObjectId.

(** X1.  Create and get-by-id round trip: when a creation is answered 201,
    a get-by-id for any identifier string that denotes the issued id is
    answered 200 with the very record the creation returned, and reads
    nothing else. *)
Theorem create_then_get
    (b : ReqBody) (env env' : Env) (db : Db) (id : string) :
  statusCode (res (createTodo b env db)) = 201 →
  castObjectId id = Some (next_id db) →
  storage_up env' = true →
  ∃ todo,
    res (createTodo b env db)
      = json 201 (response true "Todo created successfully" (toJSON todo))
    ∧ getTodoById castObjectId id env' (db_after (createTodo b env db))
      = mkOutcome
          (json 200 (response true "Todo retrieved successfully" (toJSON todo)))
          (db_after (createTodo b env db))
          [FindOne (next_id db)].
Proof.
  intros H201 Hid Hup'. rewrite createTodo_unfold in *.
  destruct (create_violations b); [|done].
  cbn zeta in *. destruct (storage_up env && _); [|done].
  eexists. split; [reflexivity|].
  rewrite (getTodoById_unfold _ _ _ _ _ Hid), Hup'.
  cbn [db_after docs]. by rewrite lookup_insert_eq.
Qed.

(** X2.  A delete answered 204 removes exactly the addressed record: the
    other records and the identifier counter are as before, and afterwards
    both a second delete and a get-by-id of the same identifier are
    answered 404. *)
Theorem delete_removes_one
    (id : string) (i : ObjectId) (env env' : Env) (db : Db) :
  castObjectId id = Some i →
  statusCode (res (deleteTodo castObjectId id env db)) = 204 →
  storage_up env' = true →
  is_Some (docs db !! i)
  ∧ docs (db_after (deleteTodo castObjectId id env db)) !! i = None
  ∧ (∀ j, j ≠ i →
       docs (db_after (deleteTodo castObjectId id env db)) !! j = docs db !! j)
  ∧ next_id (db_after (deleteTodo castObjectId id env db)) = next_id db
  ∧ res (deleteTodo castObjectId id env'
           (db_after (deleteTodo castObjectId id env db)))
    = json 404 (response false "Todo not found" JNull)
  ∧ res (getTodoById castObjectId id env'
           (db_after (deleteTodo castObjectId id env db)))
    = json 404 (response false "Todo not found" JNull).
Proof.
  intros Hid H204 Hup'.
  rewrite (deleteTodo_unfold _ _ _ _ _ Hid) in *.
  destruct (storage_up env); [|done].
  destruct (docs db !! i) as [d|] eqn:Hd; [|done].
  cbn [db_after docs next_id].
  rewrite (deleteTodo_unfold _ _ _ _ _ Hid), (getTodoById_unfold _ _ _ _ _ Hid).
  rewrite Hup'. cbn [docs]. rewrite lookup_delete_eq.
  split_and!; [by eexists|done| |done..].
  intros j Hj. by rewrite lookup_delete_ne.
Qed.

(** X3.  A request that is answered with an error status, and any read
    request, leaves the store exactly as it was. *)
Theorem refused_or_read_keeps_store (r : Request) (env : Env) (db : Db) :
  400 <= statusCode (res (router castObjectId r env db))
  ∨ (∃ q, r = GET_todos q) ∨ (∃ id, r = GET_todo id) →
  db_after (router castObjectId r env db) = db.
Proof.
  intros H.
  destruct r as [b|q|id|id b|id]; cbn [router] in *.
  - destruct H as [H|[[? [=]]|[? [=]]]].
    rewrite createTodo_unfold in *.
    destruct (create_violations b); [|done].
    cbn zeta in *. by destruct (storage_up env && _).
  - by apply (reads_keep_store castObjectId (GET_todos q)).
  - by apply (reads_keep_store castObjectId (GET_todo id)).
  - destruct H as [H|[[? [=]]|[? [=]]]].
    destruct (castObjectId id) as [i|] eqn:Hi.
    + rewrite (updateTodo_unfold _ _ _ _ _ _ Hi) in *.
      case_bool_decide; [done|].
      destruct (update_violations b); [|done].
      cbn zeta in *. destruct (storage_up env); [|done].
      by destruct (docs db !! i).
    + unfold updateTodo. by rewrite (isValidObjectId_None _ _ Hi).
  - destruct H as [H|[[? [=]]|[? [=]]]].
    destruct (castObjectId id) as [i|] eqn:Hi.
    + rewrite (deleteTodo_unfold _ _ _ _ _ Hi) in *.
      destruct (storage_up env); [|done].
      by destruct (docs db !! i).
    + unfold deleteTodo. by rewrite (isValidObjectId_None _ _ Hi).
Qed.

(** Case analysis on how a request is served: one goal per path through
    the handler that serves it. *)
Ltac served_cases :=
  match goal with
  | r : Request |- _ =>
      let b := fresh "b" in
      let q := fresh "q" in
      let id := fresh "id" in
      let i := fresh "i" in
      let Hi := fresh "Hi" in
      destruct r as [b|q|id|id b|id]; cbn [router] in *;
      [ rewrite createTodo_unfold in *;
        destruct (create_violations b) eqn:?;
        [ cbn zeta in *; destruct (storage_up _) eqn:?;
          [ case_bool_decide | ]; cbn [andb] in * | ]
      | unfold getAllTodos, Todo_find_sort in *;
        destruct (storage_up _) eqn:?
      | destruct (castObjectId id) as [i|] eqn:Hi;
        [ rewrite (getTodoById_unfold _ _ _ _ _ Hi) in *;
          destruct (storage_up _) eqn:?;
          [ destruct (docs _ !! i) eqn:? | ]
        | unfold getTodoById in *;
          rewrite (isValidObjectId_None _ _ Hi) in *; cbn [negb] in * ]
      | destruct (castObjectId id) as [i|] eqn:Hi;
        [ rewrite (updateTodo_unfold _ _ _ _ _ _ Hi) in *;
          case_bool_decide;
          [ | destruct (update_violations b) eqn:?;
              [ cbn zeta in *; destruct (storage_up _) eqn:?;
                [ destruct (docs _ !! i) eqn:? | ] | ] ]
        | unfold updateTodo in *;
          rewrite (isValidObjectId_None _ _ Hi) in *; cbn [negb] in * ]
      | destruct (castObjectId id) as [i|] eqn:Hi;
        [ rewrite (deleteTodo_unfold _ _ _ _ _ Hi) in *;
          destruct (storage_up _) eqn:?;
          [ destruct (docs _ !! i) eqn:? | ]
        | unfold deleteTodo in *;
          rewrite (isValidObjectId_None _ _ Hi) in *; cbn [negb] in * ] ]
  end.

(** X4.  The only status codes ever sent are 200, 201, 204, 400, 404 and
    500.  Whenever a body is sent, its success flag is true exactly for the
    statuses below 400, and its data is null exactly when the flag is
    false. *)
Theorem status_and_success_flag (r : Request) (env : Env) (db : Db) :
  statusCode (res (router castObjectId r env db))
    ∈ [200; 201; 204; 400; 404; 500]
  ∧ ∀ s m d,
      body (res (router castObjectId r env db))
        = Some (JObj [("success", JBool s); ("message", JStr m); ("data", d)]) →
      (s = true ↔ statusCode (res (router castObjectId r env db)) < 400)
      ∧ (s = false ↔ d = JNull).
Proof.
  served_cases;
    (split; [cbn; set_solver|]);
    intros s m d [= <- _ <-]; cbn; split; split; (done || lia).
Qed.

(** X5.  Serving a request sends at most one command to storage.  A
    request answered 400 (refused for its identifier, its body or its
    fields) has sent none, and a request answered 200, 201, 204 or 404 has
    sent exactly one.  The same holds of an update on any body, where a 500
    can come without a command: a value the cast refuses ends the call
    before storage is reached. *)
Theorem storage_commands (r : Request) (env : Env) (db : Db) :
  (length (calls (router castObjectId r env db)) ≤ 1)%nat
  ∧ (statusCode (res (router castObjectId r env db)) = 400 →
     calls (router castObjectId r env db) = [])
  ∧ (statusCode (res (router castObjectId r env db)) ∈ [200; 201; 204; 404] →
     length (calls (router castObjectId r env db)) = 1%nat)
  ∧ ∀ (id : string) (b : RawBody),
      (length (calls (Raw.updateTodo castObjectId id b env db)) ≤ 1)%nat
      ∧ (statusCode (res (Raw.updateTodo castObjectId id b env db)) = 400 →
         calls (Raw.updateTodo castObjectId id b env db) = [])
      ∧ (statusCode (res (Raw.updateTodo castObjectId id b env db))
           ∈ [200; 404] →
         length (calls (Raw.updateTodo castObjectId id b env db)) = 1%nat)
      ∧ (typed b = None →
         calls (Raw.updateTodo castObjectId id b env db) = []).
Proof.
  assert (∀ r',
    (length (calls (router castObjectId r' env db)) ≤ 1)%nat
    ∧ (statusCode (res (router castObjectId r' env db)) = 400 →
       calls (router castObjectId r' env db) = [])
    ∧ (statusCode (res (router castObjectId r' env db))
         ∈ [200; 201; 204; 404] →
       length (calls (router castObjectId r' env db)) = 1%nat)) as Hrouter.
  { clear r. intros r.
    served_cases; cbn; (split_and!; [lia| |]); try done;
      rewrite !elem_of_cons, elem_of_nil; lia. }
  destruct (Hrouter r) as (H1 & H2 & H3). split_and!; [done..|].
  intros id b.
  destruct (Raw_updateTodo_cases castObjectId id b env db)
    as [(tb & Htb & ->)|[->| [Htb ->]]].
  - destruct (Hrouter (PATCH_todo id tb)) as (H1' & H2' & H3').
    cbn [router] in *. split_and!; [done..| |by rewrite Htb].
    intros Hin. apply H3'. revert Hin.
    rewrite !elem_of_cons, !elem_of_nil. tauto.
  - cbn. split_and!; [lia|done| |done].
    rewrite !elem_of_cons, elem_of_nil. lia.
  - cbn. split_and!; [lia|done| |done].
    rewrite !elem_of_cons, elem_of_nil. lia.
Qed.

(** X6.  While storage is unreachable no request succeeds and none is
    answered not-found: the answer is 400 for a request refused before the
    storage call and 500 otherwise, and the store is left as it was.  The
    same holds of an update on any body. *)
Theorem storage_down (r : Request) (env : Env) (db : Db) :
  storage_up env = false →
  ((statusCode (res (router castObjectId r env db)) = 400
    ∨ statusCode (res (router castObjectId r env db)) = 500)
   ∧ db_after (router castObjectId r env db) = db)
  ∧ ∀ (id : string) (b : RawBody),
      (statusCode (res (Raw.updateTodo castObjectId id b env db)) = 400
       ∨ statusCode (res (Raw.updateTodo castObjectId id b env db)) = 500)
      ∧ db_after (Raw.updateTodo castObjectId id b env db) = db.
Proof.
  intros Hdown.
  assert (∀ r',
    (statusCode (res (router castObjectId r' env db)) = 400
     ∨ statusCode (res (router castObjectId r' env db)) = 500)
    ∧ db_after (router castObjectId r' env db) = db) as Hrouter.
  { clear r. intros r.
    served_cases; cbn; try done; split; (done || tauto). }
  split; [apply Hrouter|].
  intros id b.
  destruct (Raw_updateTodo_cases castObjectId id b env db)
    as [(tb & Htb & ->)|[->| [Htb ->]]].
  - apply (Hrouter (PATCH_todo id tb)).
  - cbn. tauto.
  - cbn. tauto.
Qed.

(** X7.  Update and get-by-id round trip, and repetition: when an update
    is answered 200, a following get-by-id of the same identifier returns
    the record the update returned, and sending the same update again at the
    same clock reading gives the same answer and the same store. *)
Theorem update_then_get_and_repeat
    (id : string) (b : ReqBody) (env env' : Env) (db : Db) :
  statusCode (res (updateTodo castObjectId id b env db)) = 200 →
  storage_up env' = true →
  ∃ todo,
    res (updateTodo castObjectId id b env db)
      = json 200 (response true "Todo updated successfully" (toJSON todo))
    ∧ res (getTodoById castObjectId id env'
             (db_after (updateTodo castObjectId id b env db)))
      = json 200 (response true "Todo retrieved successfully" (toJSON todo))
    ∧ res (updateTodo castObjectId id b env
             (db_after (updateTodo castObjectId id b env db)))
      = res (updateTodo castObjectId id b env db)
    ∧ db_after (updateTodo castObjectId id b env
                  (db_after (updateTodo castObjectId id b env db)))
      = db_after (updateTodo castObjectId id b env db).
Proof.
  intros H200 Hup'.
  destruct (castObjectId id) as [i|] eqn:Hi.
  2:{ unfold updateTodo in H200.
      by rewrite (isValidObjectId_None _ _ Hi) in H200. }
  rewrite !(updateTodo_unfold _ _ _ _ _ _ Hi) in *.
  case_bool_decide; [done|].
  destruct (update_violations b); [|done].
  cbn zeta in *. destruct (storage_up env); [|done].
  destruct (docs db !! i) as [d|] eqn:Hd; [|done].
  cbn [res db_after docs next_id].
  rewrite (getTodoById_unfold _ _ _ _ _ Hi), Hup'. cbn [docs].
  rewrite !lookup_insert_eq.
  assert (updated (timestamp_now env) b (updated (timestamp_now env) b d)
          = updated (timestamp_now env) b d) as Hrep.
  { unfold updated. cbn.
    destruct (b_title b), (b_description b), (b_status b), (b_priority b);
      reflexivity. }
  eexists. split_and!; try reflexivity.
  - by rewrite Hrep.
  - by rewrite Hrep, insert_insert_eq.
Qed.

(** X8.  An update that supplies neither title nor priority cannot fail
    validation: whatever the stored record looks like, with storage
    reachable it is answered 200 when every value it supplies can be cast
    to its field's type, and the stored title and priority are left as they
    are.  When it supplies a value the cast refuses, it is answered 500 and
    the store is left as it was. *)
Theorem update_without_validated_fields
    (id : string) (i : ObjectId) (b : RawBody) (env : Env) (db : Db)
    (d : Todo) :
  castObjectId id = Some i →
  docs db !! i = Some d →
  raw_title b = None → raw_priority b = None →
  is_Some (raw_description b) ∨ is_Some (raw_status b) →
  storage_up env = true →
  (is_Some (typed b) →
   ∃ d',
     res (Raw.updateTodo castObjectId id b env db)
       = json 200 (response true "Todo updated successfully" (toJSON d'))
     ∧ docs (db_after (Raw.updateTodo castObjectId id b env db)) !! i
       = Some d'
     ∧ title d' = title d
     ∧ priority d' = priority d)
  ∧ (typed b = None →
     Raw.updateTodo castObjectId id b env db
     = mkOutcome
         (json 500 (response false "Server error while updating todo" JNull))
         db []).
Proof.
  intros Hi Hd Ht Hp Hsome Hup.
  split; [|by apply (Raw_updateTodo_uncastable _ _ i)].
  intros [tb Htb].
  rewrite (Raw_updateTodo_typed _ _ _ _ _ _ Htb).
  assert (b_title tb = None ∧ b_priority tb = None
          ∧ (is_Some (b_description tb) ∨ is_Some (b_status tb)))
    as (Ht' & Hp' & Hsome').
  { destruct b as [t ds st p rest]. unfold typed, cast in Htb.
    cbn [raw_title raw_description raw_status raw_priority raw_rest] in *.
    subst t p. rewrite !is_Some_alt in Hsome.
    destruct ds as [[?|?]|], st as [[?|?]|]; try discriminate;
      injection Htb as <-; cbn; rewrite !is_Some_alt; tauto. }
  rewrite (updateTodo_unfold _ _ _ _ _ _ Hi).
  rewrite bool_decide_eq_false_2 by (unfold supplies_some; tauto).
  assert (update_violations tb = []) as ->
    by (unfold update_violations; by rewrite Ht', Hp').
  cbn zeta. rewrite Hup, Hd. cbn [res db_after docs].
  eexists. split_and!; [reflexivity|by rewrite lookup_insert_eq|..];
    unfold updated; cbn; by rewrite ?Ht', ?Hp'.
Qed.

(** X9.  On a store whose records carry their own key, the list operation
    returns no record twice: the ids of the returned records are pairwise
    distinct. *)
Theorem list_has_no_duplicates (now : Z) (q : Query) (env : Env) (db : Db) :
  store_ok now db →
  storage_up env = true →
  ∃ todos,
    body (res (getAllTodos q env db))
      = Some (response true (count_message (length todos))
                (JArr (toJSON <$> todos)))
    ∧ NoDup (_id <$> todos)
    ∧ (length todos ≤ size (docs db))%nat.
Proof.
  intros Hok Hup. destruct (getAllTodos_up q env db Hup) as [f ->].
  cbn zeta. eexists. split; [reflexivity|].
  rewrite merge_sort_Permutation.
  assert (_id <$> records db = (map_to_list (docs db)).*1) as Hkeys.
  { unfold records. rewrite <- list_fmap_compose.
    apply list_fmap_ext. intros n [i d] Hin. cbn.
    apply list_elem_of_lookup_2, elem_of_map_to_list in Hin.
    by destruct (Hok i d Hin) as (-> & _). }
  split.
  - apply (sublist_NoDup _ (_id <$> records db)).
    + rewrite Hkeys. apply NoDup_fst_map_to_list.
    + apply fmap_sublist, sublist_filter.
  - etrans; [apply length_filter|].
    unfold records. by rewrite length_fmap, length_map_to_list.
Qed.

(** X10.  A priority filter outside low, medium, high is not refused: on a
    store whose records satisfy the invariants, the answer is 200 with an
    empty list and a count of zero. *)
Theorem list_unknown_priority
    (now : Z) (s : option string) (p : string) (env : Env) (db : Db) :
  store_ok now db →
  ¬ priority_ok p →
  storage_up env = true →
  res (getAllTodos (mkQuery s (Some p)) env db)
  = json 200 (response true "0 todo(s) retrieved successfully" (JArr [])).
Proof.
  intros Hok Hp Hup.
  destruct (getAllTodos_up (mkQuery s (Some p)) env db Hup) as [f ->].
  cbn zeta.
  assert (filter (wanted (mkQuery s (Some p))) (records db) = []) as ->; [|done].
  apply elem_of_nil_inv. intros d Hd.
  apply list_elem_of_filter in Hd as [[_ Hw] Hd]. cbn in Hw.
  unfold records in Hd. apply list_elem_of_fmap in Hd as ([i d0] & -> & Hd).
  apply elem_of_map_to_list in Hd.
  destruct (Hok _ _ Hd) as (_ & _ & (_ & Hpr & _) & _). cbn in Hw.
  by rewrite Hw in Hpr.
Qed.

Lemma filter_all {A} (P : A → Prop) `{∀ x, Decision (P x)} (l : list A) :
  (∀ x, P x) → filter P l = l.
Proof.
  intros HP. induction l as [|x l IH]; [done|].
  by rewrite filter_cons_True, IH.
Qed.

(** X11.  Create and list compose: after a creation answered 201, a list
    request with any filters returns a rearrangement of what it would have
    returned before, with the created record added when it agrees with the
    filters; without filters the count is one more than the number of
    records held before. *)
Theorem create_then_list
    (b : ReqBody) (q : Query) (env env' : Env) (db : Db) :
  statusCode (res (createTodo b env db)) = 201 →
  storage_up env' = true →
  ∃ todo todos,
    res (createTodo b env db)
      = json 201 (response true "Todo created successfully" (toJSON todo))
    ∧ body (res (getAllTodos q env' (db_after (createTodo b env db))))
      = Some (response true (count_message (length todos))
                (JArr (toJSON <$> todos)))
    ∧ todos ≡ₚ filter (wanted q) (todo :: records db)
    ∧ (q = mkQuery None None → length todos = S (size (docs db))).
Proof.
  intros H201 Hup'. rewrite createTodo_unfold in *.
  destruct (create_violations b); [|done].
  cbn zeta in *. destruct (storage_up env); [|done].
  case_bool_decide as Hfresh; [|done]. cbn [andb res db_after] in *.
  match goal with |- context [getAllTodos q env' ?d] =>
    destruct (getAllTodos_up q env' d Hup') as [f ->] end.
  cbn zeta.
  eexists; eexists. split; [reflexivity|]. split; [reflexivity|].
  assert (∀ doc, records {| docs := <[next_id db := doc]> (docs db);
                            next_id := (next_id db + 1)%N |}
                 ≡ₚ doc :: records db) as Hrec.
  { intros doc. unfold records. cbn [docs].
    by rewrite map_to_list_insert. }
  split.
  - by rewrite merge_sort_Permutation, Hrec.
  - intros ->. rewrite merge_sort_Permutation, Hrec.
    rewrite filter_all by (by intros d; split).
    cbn. unfold records. by rewrite length_fmap, length_map_to_list.
Qed.

(** X12.  Stored text stays trimmed: starting from the empty store, after
    any sequence of requests every stored title and description is its own
    trim, and every stored title has at least three characters. *)
Theorem stored_text_trimmed (rs : list (Request * Env)) :
  stored_trimmed (run castObjectId rs empty_db).
Proof.
  assert (∀ r env db, stored_trimmed db →
            stored_trimmed (db_after (router castObjectId r env db))) as Hstep.
  { intros r env db Hdb. served_cases; cbn [db_after]; try done.
    - match goal with H : create_violations _ = [] |- _ =>
        apply create_violations_nil in H as [(t & Ht & Htok) _] end.
      intros j d. cbn [docs].
      destruct (decide (next_id db = j)) as [<-|Hne].
      + rewrite lookup_insert_eq. intros [= <-]. cbn [title description].
        rewrite Ht. cbn [fmap option_fmap option_map default].
        split_and!; [apply trim_idemp| |done].
        destruct (b_description _); [apply trim_idemp|done].
      + rewrite lookup_insert_ne by done. apply Hdb.
    - match goal with H : update_violations _ = [] |- _ =>
        apply update_violations_nil in H as [Hbt _] end.
      match goal with H : docs db !! ?i = Some ?d0 |- _ =>
        destruct (Hdb _ _ H) as (Ht0 & Hd0 & Hl0) end.
      intros j d. cbn [docs].
      match goal with |- <[?i := _]> _ !! _ = _ → _ =>
        destruct (decide (i = j)) as [<-|Hne] end.
      + rewrite lookup_insert_eq. intros [= <-].
        unfold updated. cbn [title description].
        split_and!.
        * destruct (b_title _); [apply trim_idemp|done].
        * destruct (b_description _); [apply trim_idemp|done].
        * destruct (b_title _) as [t'|] eqn:Et; [|done].
          by apply (Hbt t').
      + rewrite lookup_insert_ne by done. apply Hdb.
    - intros j d. cbn [docs]. intros Hd.
      apply lookup_delete_Some in Hd as [_ Hd]. by apply (Hdb j d). }
  assert (∀ db, stored_trimmed db →
            stored_trimmed (run castObjectId rs db)) as Hrun.
  { induction rs as [|[r env] rs IH]; intros db Hdb; [done|].
    cbn. by apply IH, Hstep. }
  apply Hrun. intros i d. cbn. by rewrite lookup_empty.
Qed.

End Composed.

(** * The error-handling middleware *)

Lemma errorHandler_unfold (NODE_ENV : option string) (err : JsError) :
  errorHandler NODE_ENV err =
  if bool_decide (err_name err = "ValidationError" ∧ err_errors err = None)
  then None
  else if negb
            (bool_decide
               (100 <=
                (if bool_decide (err_code err = Some 11000) then 409
                 else if bool_decide (err_name err = "CastError"
                                      ∨ err_name err = "ValidationError")
                      then 400
                      else or_number (err_statusCode err)
                                     (or_number (err_status err) 500))
                <= 999))
  then None
  else
    Some
      (json
         (if bool_decide (err_code err = Some 11000) then 409
          else if bool_decide (err_name err = "CastError"
                               ∨ err_name err = "ValidationError") then 400
          else or_number (err_statusCode err) (or_number (err_status err) 500))
         (JObj
            ([("success", JBool false);
              ("message",
               JStr
                 (if bool_decide (err_code err = Some 11000)
                  then "Duplicate value for " +:+ Js.dq
                         +:+ or_string (head (default [] (err_keyValue err)))
                                       "field"
                         +:+ Js.dq +:+ ". Please use a different value."
                  else if bool_decide (err_name err = "CastError")
                  then "Invalid value for field " +:+ Js.dq
                         +:+ interpolate (err_path err) +:+ Js.dq +:+ ": "
                         +:+ interpolate (err_value err)
                  else if bool_decide (err_name err = "ValidationError")
                  then Js.join ". " (messages (default [] (err_errors err)))
                  else or_string (err_message err) "Internal Server Error"));
              ("data", JNull)]
             ++ (if bool_decide (NODE_ENV ≠ Some "production")
                 then match err_stack err with
                      | Some st => [("stack", JStr st)]
                      | None => []
                      end
                 else []))%list)).
Proof.
  unfold errorHandler. rewrite !String_eqb_decide.
  destruct (decide (err_name err = "ValidationError")) as [Hv|Hv].
  - rewrite (bool_decide_eq_true_2 _ Hv).
    rewrite (bool_decide_eq_false_2 (err_name err = "CastError"))
      by (rewrite Hv; discriminate).
    destruct (err_errors err) as [errors|].
    + rewrite (bool_decide_eq_false_2 (_ ∧ _)) by (by intros [_ ?]).
      rewrite !(bool_decide_eq_true_2 (_ ∨ _)) by tauto.
      case_bool_decide; reflexivity.
    + by rewrite (bool_decide_eq_true_2 (_ ∧ _)).
  - rewrite (bool_decide_eq_false_2 _ Hv).
    rewrite (bool_decide_eq_false_2 (_ ∧ _)) by (by intros [? _]).
    destruct (decide (err_name err = "CastError")) as [Hc|Hc].
    + rewrite (bool_decide_eq_true_2 _ Hc).
      rewrite !(bool_decide_eq_true_2 (_ ∨ _)) by tauto.
      case_bool_decide; reflexivity.
    + rewrite (bool_decide_eq_false_2 _ Hc).
      rewrite !(bool_decide_eq_false_2 (_ ∨ _)) by tauto.
      case_bool_decide; [reflexivity|].
      by destruct (bool_decide (100 <= _ <= 999)).
Qed.

(** X13.  Precedence in [errorHandler]: a duplicate-key error (code 11000)
    is answered 409 whatever its name; otherwise a CastError or a
    ValidationError is answered 400; otherwise the status attached to the
    error is used, [statusCode] before [status], a zero or missing one being
    skipped, and 500 when neither is usable.  The status written is never
    0. *)
Theorem errorHandler_status
    (NODE_ENV : option string) (err : JsError) (r : Response) :
  errorHandler NODE_ENV err = Some r →
  (err_code err = Some 11000 → statusCode r = 409)
  ∧ (err_code err ≠ Some 11000 →
     err_name err = "CastError" ∨ err_name err = "ValidationError" →
     statusCode r = 400)
  ∧ (err_code err ≠ Some 11000 →
     err_name err ≠ "CastError" → err_name err ≠ "ValidationError" →
     statusCode r
     = match err_statusCode err, err_status err with
       | Some c, _ => if Z.eqb c 0
                      then match err_status err with
                           | Some c' => if Z.eqb c' 0 then 500 else c'
                           | None => 500
                           end
                      else c
       | None, Some c' => if Z.eqb c' 0 then 500 else c'
       | None, None => 500
       end)
  ∧ statusCode r ≠ 0.
Proof.
  rewrite errorHandler_unfold. case_bool_decide; [done|].
  case_bool_decide; [|done]. cbn [negb].
  intros [= <-]. cbn [statusCode json].
  split_and!.
  - intros H11. by rewrite bool_decide_eq_true_2.
  - intros H11 Hn. by rewrite bool_decide_eq_false_2, bool_decide_eq_true_2.
  - intros H11 Hc Hv.
    rewrite bool_decide_eq_false_2 by done.
    rewrite bool_decide_eq_false_2 by tauto.
    unfold or_number. by destruct (err_statusCode err), (err_status err).
  - repeat case_bool_decide; try done.
    unfold or_number.
    destruct (err_statusCode err) as [c|], (err_status err) as [c'|];
      repeat match goal with
        | |- context [Z.eqb ?a 0] => destruct (Z.eqb_spec a 0)
        end; done.
Qed.

(** X14.  On an error object of the shape [JsError], [errorHandler]
    itself throws in exactly two cases: for an error
    named ValidationError that carries no [errors] member, and for an error
    that is neither a duplicate-key error, a CastError nor a ValidationError
    and whose attached status (statusCode, else status, else 500) lies
    outside 100..999.  Every other error is answered. *)
Theorem errorHandler_throws (NODE_ENV : option string) (err : JsError) :
  errorHandler NODE_ENV err = None
  ↔ (err_name err = "ValidationError" ∧ err_errors err = None)
    ∨ (err_code err ≠ Some 11000
       ∧ err_name err ≠ "CastError"
       ∧ err_name err ≠ "ValidationError"
       ∧ ¬ (100 <= or_number (err_statusCode err)
                              (or_number (err_status err) 500) <= 999)).
Proof.
  rewrite errorHandler_unfold.
  case_bool_decide as Hv; [by split; [left|]|].
  destruct (decide (err_code err = Some 11000)) as [H11|H11].
  { rewrite !(bool_decide_eq_true_2 (err_code err = _)) by done. cbn.
    split; [done|]. intros [?|(? & _)]; done. }
  rewrite !(bool_decide_eq_false_2 (err_code err = _)) by done.
  destruct (decide (err_name err = "CastError" ∨ err_name err = "ValidationError"))
    as [Hn|Hn].
  { rewrite !(bool_decide_eq_true_2 (_ ∨ _)) by done. cbn.
    split; [done|]. intros [?|(_ & ? & ? & _)]; [done|tauto]. }
  rewrite !(bool_decide_eq_false_2 (_ ∨ _)) by done.
  case_bool_decide as Hr; cbn [negb].
  - split; [done|]. intros [?|(_ & _ & _ & ?)]; done.
  - split; [|done]. intros _. right. split_and!; [done| | |done]; tauto.
Qed.

(** X15.  The body written by [errorHandler] always has success false and
    data null.  It is the three-member envelope exactly when the process
    runs in production or the error has no stack; otherwise it carries the
    stack as a fourth member. *)
Theorem errorHandler_body
    (NODE_ENV : option string) (err : JsError) (r : Response) :
  errorHandler NODE_ENV err = Some r →
  ∃ ms message,
    body r = Some (JObj ms)
    ∧ member "success" ms = Some (JBool false)
    ∧ member "message" ms = Some (JStr message)
    ∧ member "data" ms = Some JNull
    ∧ (NODE_ENV = Some "production" ∨ err_stack err = None →
       JObj ms = response false message JNull ∧ is_envelope (JObj ms))
    ∧ (∀ st, NODE_ENV ≠ Some "production" → err_stack err = Some st →
       member "stack" ms = Some (JStr st) ∧ ¬ is_envelope (JObj ms)).
Proof.
  rewrite errorHandler_unfold. case_bool_decide; [done|].
  case_bool_decide; [|done]. cbn [negb].
  intros [= <-]. cbn [body json].
  eexists; eexists. split; [reflexivity|].
  split_and!; try reflexivity.
  - intros Hprod.
    assert ((if bool_decide (NODE_ENV ≠ Some "production")
             then match err_stack err with
                  | Some st => [("stack", JStr st)]
                  | None => []
                  end
             else []) = []) as ->.
    { destruct Hprod as [Hp|Hs].
      - by rewrite (bool_decide_eq_false_2 (NODE_ENV ≠ _))
          by (intros Hn; by apply Hn).
      - rewrite Hs. by destruct (bool_decide (NODE_ENV ≠ _)). }
    split; [reflexivity|].
    eexists _, _, _. split; [reflexivity | by left].
  - intros st Hdev Hst.
    rewrite Hst, (bool_decide_eq_true_2 (NODE_ENV ≠ _)) by done.
    split; [reflexivity|].
    intros (s & m & d & [=] & _).
Qed.

(** X16.  The central handler and the controllers agree on validation
    errors: had the ValidationError that [Todo.create] rejects with reached
    [errorHandler] in production instead of being caught in [createTodo],
    the response would have been the one [createTodo] writes. *)
Theorem errorHandler_agrees_with_createTodo
    (b : ReqBody) (env : Env) (db : Db) (err : JsError)
    (errors : list (string * string)) (db' : Db) (cs : list StorageCall) :
  Todo_create env db
    (mkFields (b_title b) (b_description b) (b_status b) (b_priority b))
    = (Rejected (ValidationError errors), db', cs) →
  err_name err = "ValidationError" →
  err_errors err = Some errors →
  err_code err ≠ Some 11000 →
  errorHandler (Some "production") err = Some (res (createTodo b env db)).
Proof.
  intros Hrej Hname Herrs Hcode.
  unfold createTodo. rewrite Hrej. cbn [res].
  rewrite errorHandler_unfold, Hname, Herrs.
  rewrite bool_decide_eq_false_2 by (by intros [_ ?]).
  rewrite !(bool_decide_eq_false_2 (err_code err = _)) by done.
  rewrite !(bool_decide_eq_true_2 (_ ∨ _)) by tauto. cbn [negb].
  rewrite (bool_decide_eq_true_2 (100 <= 400 <= 999)) by lia. cbn [negb].
  rewrite (bool_decide_eq_false_2 ("ValidationError" = "CastError")) by done.
  rewrite (bool_decide_eq_true_2 ("ValidationError" = "ValidationError")) by done.
  by rewrite (bool_decide_eq_false_2 (Some "production" ≠ _)) by (by intros ?).
Qed.

(** X17.  A request no route matches is answered 404 with the message
    "Route not found: METHOD URL", success false and data null; outside
    production the body also carries the stack. *)
Theorem unknown_route_404
    (NODE_ENV : option string) (method originalUrl stack : string) :
  errorHandler NODE_ENV (route_not_found method originalUrl stack)
  = Some
      (json 404
         (JObj
            ([("success", JBool false);
              ("message",
               JStr ("Route not found: " +:+ method +:+ " " +:+ originalUrl));
              ("data", JNull)]
             ++ (if bool_decide (NODE_ENV = Some "production")
                 then []
                 else [("stack", JStr stack)]))%list)).
Proof.
  rewrite errorHandler_unfold. cbn.
  repeat case_bool_decide;
    repeat match goal with
      | H : _ ∧ _ |- _ => destruct H
      | H : _ ∨ _ |- _ => destruct H
      end; try discriminate; try congruence; try lia; reflexivity.
Qed.

(** * The client against the server *)

Lemma title_check_spec (t : string) :
  Nat.ltb (String.length (Js.trim t)) 3 = bool_decide (¬ title_ok t).
Proof.
  unfold title_ok. destruct (Nat.ltb_spec (String.length (Js.trim t)) 3).
  - rewrite bool_decide_eq_true_2; [done|lia].
  - rewrite bool_decide_eq_false_2; [done|]. intros H'. by apply H'.
Qed.

Lemma form_body_violations (f : Client.Form) :
  create_violations (Client.form_body f) =
  ((if bool_decide (title_ok (Client.form_title f)) then []
    else [("title",
           if Nat.eqb (String.length (Js.trim (Client.form_title f))) 0
           then "Title is required"
           else "Title must be at least 3 characters long")])
   ++ (if bool_decide (priority_ok (Client.form_priority f)) then []
       else [("priority", snd Schema.enum)]))%list.
Proof.
  unfold create_violations, Client.form_body, title_ok.
  cbn [b_title b_priority]. f_equal.
  destruct (Nat.eqb_spec (String.length (Js.trim (Client.form_title f))) 0);
    destruct (Nat.ltb_spec (String.length (Js.trim (Client.form_title f))) 3);
    case_bool_decide; try done; lia.
Qed.

(** X18.  The create form and the server apply the same title rule.  The
    form hands its content to [onAdd] exactly when the title has
    trim-length at least 3.  What it holds back the server would have
    refused with 400; what it hands over, with a priority among low, medium,
    high, the server stores (storage permitting) with the title trimmed,
    status false and that priority, and the call is fulfilled with the
    stored record. *)
Theorem form_and_server_agree
    (form : Client.Form) (error : string) (env : Env) (db : Db) :
  ((Client.handleSubmit form error).1.1 = None
   ↔ ¬ title_ok (Client.form_title form))
  ∧ ((Client.handleSubmit form error).1.1 = None →
     (Client.handleSubmit form error).1.2 = form
     ∧ (Client.handleSubmit form error).2
       = "Title must be at least 3 characters."
     ∧ statusCode (res (createTodo (Client.form_body form) env db)) = 400)
  ∧ (∀ payload,
       (Client.handleSubmit form error).1.1 = Some payload →
       priority_ok (Client.form_priority payload) →
       storage_up env = true →
       docs db !! next_id db = None →
       payload = form
       ∧ (Client.handleSubmit form error).1.2 = Client.INITIAL
       ∧ ∃ todo,
           Client.axios (Some (res (createTodo (Client.form_body payload) env db)))
             = Client.Fulfilled (Some (toJSON todo))
           ∧ docs (db_after (createTodo (Client.form_body payload) env db))
               !! _id todo = Some todo
           ∧ title todo = Js.trim (Client.form_title form)
           ∧ description todo = Js.trim (Client.form_description form)
           ∧ status todo = false
           ∧ priority todo = Client.form_priority form).
Proof.
  unfold Client.handleSubmit. rewrite title_check_spec.
  case_bool_decide as Ht; cbn [fst snd].
  - split_and!; [done| |done].
    intros _. split_and!; [done..|].
    rewrite createTodo_unfold, form_body_violations.
    rewrite (bool_decide_eq_false_2 (title_ok _)) by done. done.
  - split_and!; [split; [done|tauto] | done |].
    intros payload [= <-] Hp Hup Hfresh.
    split_and!; [done..|].
    rewrite createTodo_unfold, form_body_violations.
    rewrite (bool_decide_eq_true_2 (title_ok _)) by tauto.
    rewrite (bool_decide_eq_true_2 (priority_ok _)) by done.
    cbn [app]. cbn zeta. rewrite Hup, bool_decide_eq_true_2 by done.
    cbn [andb res db_after docs]. eexists.
    split; [reflexivity|]. cbn [_id].
    rewrite lookup_insert_eq. done.
Qed.

(** X19.  The filter selects and the list operation.  With storage
    reachable, [loadTodos] ends up showing the stored records that agree
    with the choices made, where the empty choice (All) constrains nothing,
    the status choice [true] asks for completed records and any other
    status choice for pending ones, and the error banner is cleared.  With
    storage unreachable the list shown stays as it was and the banner shows
    the server's message. *)
Theorem filter_choices
    (filters : Client.Filters) (app : Client.App) (env : Env) (db : Db) :
  (storage_up env = true →
   ∃ ds,
     Client.axios (Some (res (getAllTodos (Client.params filters) env db)))
       = Client.Fulfilled (Some (JArr (toJSON <$> ds)))
     ∧ Client.error (Client.loadTodos (Client.Fulfilled ds) app) = EmptyString
     ∧ ∀ d, d ∈ Client.todos (Client.loadTodos (Client.Fulfilled ds) app) ↔
            d ∈ records db
            ∧ (Client.filter_status filters = EmptyString
               ∨ status d = bool_decide (Client.filter_status filters = "true"))
            ∧ (Client.filter_priority filters = EmptyString
               ∨ priority d = Client.filter_priority filters))
  ∧ (storage_up env = false →
     Client.axios (Some (res (getAllTodos (Client.params filters) env db)))
       = Client.Failed (Some "Server error while retrieving todos")
     ∧ Client.loadTodos
         (Client.Failed (Some "Server error while retrieving todos")) app
       = Client.mkApp (Client.todos app) "Server error while retrieving todos").
Proof.
  split.
  - intros Hup.
    destruct (getAllTodos_up (Client.params filters) env db Hup) as [f ->].
    cbn zeta. eexists. split; [reflexivity|]. split; [reflexivity|].
    intros d. cbn [Client.loadTodos Client.todos].
    rewrite merge_sort_Permutation, list_elem_of_filter.
    unfold wanted, Client.params. cbn [q_status q_priority].
    destruct (Client.filter_status filters) as [|c s] eqn:Es,
             (Client.filter_priority filters) as [|c' p] eqn:Ep;
      intuition (try discriminate; auto).
  - intros Hdown. unfold getAllTodos, Todo_find_sort. rewrite Hdown.
    split; reflexivity.
Qed.

(** The summary strip adds up: the pending count is the number of
    records whose status is false, and completed plus pending is the
    total. *)
Theorem stats_add_up (app : Client.App) :
  Client.pendingCount app
    = length (filter (λ t, status t = false) (Client.todos app))
  ∧ (Client.completedCount app + Client.pendingCount app)%nat
    = Client.totalCount app.
Proof.
  unfold Client.pendingCount, Client.completedCount, Client.totalCount.
  assert (length (filter (λ t, status t = true) (Client.todos app))
          + length (filter (λ t, status t = false) (Client.todos app))
          = length (Client.todos app))%nat as H.
  { induction (Client.todos app) as [|t l IH]; [done|].
    rewrite !filter_cons. destruct (status t) eqn:E.
    - rewrite decide_True, decide_False by done. cbn. lia.
    - rewrite decide_False, decide_True by done. cbn. lia. }
  lia.
Qed.

Lemma find_by_id_None (id : ObjectId) (l : list Todo) :
  List.find (λ t, N.eqb (_id t) id) l = None ↔ id ∉ _id <$> l.
Proof.
  induction l as [|t l IH]; cbn.
  - split; [intros _ H; by apply elem_of_nil in H | done].
  - destruct (N.eqb_spec (_id t) id) as [<-|Hne].
    + split; [done|]. intros H. destruct H. by left.
    + rewrite IH, not_elem_of_cons. split; [by intros ?|by intros [_ ?]].
Qed.

Lemma find_by_id_NoDup (id : ObjectId) (l : list Todo) (t : Todo) :
  NoDup (_id <$> l) → t ∈ l → _id t = id →
  List.find (λ t, N.eqb (_id t) id) l = Some t.
Proof.
  induction l as [|x l IH]; cbn; intros Hnd Hin Hid.
  - by apply elem_of_nil in Hin.
  - apply NoDup_cons in Hnd as [Hx Hnd].
    apply elem_of_cons in Hin as [->|Hin].
    + by rewrite (proj2 (N.eqb_eq _ _) Hid).
    + destruct (N.eqb_spec (_id x) id) as [Hxid|_]; [|by apply IH].
      destruct Hx. rewrite Hxid, <- Hid. by apply list_elem_of_fmap_2.
Qed.

Lemma unflip_flip (id : ObjectId) (original : Todo) (l : list Todo) :
  (∀ t, t ∈ l → _id t = id → status t = status original) →
  Client.unflip id original (Client.flip id l) = l.
Proof.
  unfold Client.unflip, Client.flip. intros H.
  rewrite <- list_fmap_compose.
  rewrite <- (list_fmap_id l) at 2. apply list_fmap_ext.
  intros n t Ht. apply list_elem_of_lookup_2 in Ht. cbn.
  destruct (N.eqb_spec (_id t) id) as [E|E]; cbn.
  - rewrite (proj2 (N.eqb_eq _ _) E). unfold Client.with_status. cbn.
    rewrite <- (H t Ht E). by destruct t.
  - by rewrite (proj2 (N.eqb_neq _ _) E).
Qed.

(** X20.  Toggling when ids are distinct.  A toggle sends the negated status
    of the record with that id, and sends nothing when no record has it.
    Whatever the outcome, the list keeps its ids in their order; and when
    the call fails, the rollback restores the list exactly as it was. *)
Theorem toggle_rollback {A} (id : ObjectId) (app : Client.App) :
  NoDup (_id <$> Client.todos app) →
  ((Client.handleToggle (A:=A) id app).1 = None
   ↔ id ∉ _id <$> Client.todos app)
  ∧ (∀ t, t ∈ Client.todos app → _id t = id →
       (Client.handleToggle (A:=A) id app).1
       = Some (Client.status_body (negb (status t))))
  ∧ (∀ result : Client.ApiResult A,
       _id <$> Client.todos ((Client.handleToggle id app).2 result)
       = _id <$> Client.todos app)
  ∧ (∀ m,
       Client.todos ((Client.handleToggle (A:=A) id app).2 (Client.Failed m))
       = Client.todos app).
Proof.
  intros Hnd. unfold Client.handleToggle.
  assert (∀ l, _id <$> Client.flip id l = _id <$> l) as Hids.
  { intros l. unfold Client.flip. rewrite <- list_fmap_compose.
    apply list_fmap_ext. intros n t _. cbn.
    by destruct (N.eqb (_id t) id). }
  destruct (List.find _ (Client.todos app)) as [o|] eqn:Hfind; cbn [fst snd].
  - apply find_some in Hfind as [Ho Hoid].
    apply list_elem_of_In in Ho. apply N.eqb_eq in Hoid.
    assert (∀ t, t ∈ Client.todos app → _id t = id → t = o) as Huniq.
    { intros t Ht Hid.
      pose proof (find_by_id_NoDup id _ t Hnd Ht Hid) as H1.
      pose proof (find_by_id_NoDup id _ o Hnd Ho Hoid) as H2. congruence. }
    split_and!.
    + split; [done|]. intros Hn. destruct Hn. rewrite <- Hoid.
      by apply list_elem_of_fmap_2.
    + intros t Ht Hid. by rewrite (Huniq t Ht Hid).
    + intros [?|m]; cbn [Client.todos]; [apply Hids|].
      unfold Client.unflip. rewrite <- list_fmap_compose, <- Hids.
      unfold Client.flip. rewrite <- !list_fmap_compose.
      apply list_fmap_ext. intros n t _. cbn.
      by destruct (N.eqb (_id t) id); cbn; destruct (N.eqb _ id).
    + intros m. cbn [Client.todos]. apply unflip_flip.
      intros t Ht Hid. by rewrite (Huniq t Ht Hid).
  - apply find_by_id_None in Hfind.
    assert (Client.flip id (Client.todos app) = Client.todos app) as Hsame.
    { unfold Client.flip. rewrite <- (list_fmap_id (Client.todos app)) at 2.
      apply list_fmap_ext. intros n t Ht.
      apply list_elem_of_lookup_2 in Ht. cbn.
      destruct (N.eqb_spec (_id t) id) as [E|E]; [|done].
      destruct Hfind. rewrite <- E. by apply list_elem_of_fmap_2. }
    split_and!; [done| | |].
    + intros t Ht Hid. destruct Hfind. rewrite <- Hid.
      by apply list_elem_of_fmap_2.
    + intros result. cbn [Client.todos]. by rewrite Hsame.
    + intros m. cbn [Client.todos]. by rewrite Hsame.
Qed.

Lemma violations_message_nonempty (b : ReqBody) :
  update_violations b ≠ [] →
  Js.join ". " (messages (update_violations b)) ≠ EmptyString.
Proof.
  unfold update_violations.
  destruct (b_title b), (b_priority b);
    repeat match goal with
      | |- context [if ?c then _ else _] => destruct c
      end;
    intros H; try (by destruct H); vm_compute; discriminate.
Qed.

Lemma message_or_nonempty (m fallback : string) :
  m ≠ EmptyString → Client.message_or (Some m) fallback = m.
Proof. by destruct m. Qed.

Section ClientServer.

Variable castObjectId : string -> option ObjectId.

(** X21.  A toggle that succeeds leaves the client in step with the
    server.  If the client's records have distinct ids and each agrees with
    the stored record of its id, then toggling one of them sends an update
    the server answers 200, and afterwards every record the client shows
    again agrees with the stored record of its id (the client's copy of
    the toggled record only has an older updatedAt). *)
Theorem toggle_agrees_with_server
    (id : string) (i : ObjectId) (app : Client.App) (env : Env) (db : Db)
    (t : Todo) :
  castObjectId id = Some i →
  NoDup (_id <$> Client.todos app) →
  (∀ x, x ∈ Client.todos app →
        ∃ stored, docs db !! _id x = Some stored ∧ Client.agrees x stored) →
  t ∈ Client.todos app → _id t = i →
  storage_up env = true →
  ∃ b data,
    (Client.handleToggle (A:=option JsVal) i app).1 = Some b
    ∧ statusCode (res (updateTodo castObjectId id b env db)) = 200
    ∧ Client.axios (Some (res (updateTodo castObjectId id b env db)))
      = Client.Fulfilled data
    ∧ ∀ x,
        x ∈ Client.todos
              ((Client.handleToggle i app).2 (Client.Fulfilled data)) →
        ∃ stored,
          docs (db_after (updateTodo castObjectId id b env db)) !! _id x
            = Some stored
          ∧ Client.agrees x stored.
Proof.
  intros Hid Hnd Hview Ht Hti Hup.
  pose proof (find_by_id_NoDup i _ t Hnd Ht Hti) as Hfind.
  unfold Client.handleToggle. rewrite Hfind. cbn [fst snd Client.todos].
  destruct (Hview t Ht) as (st & Hst & Hagree). rewrite Hti in Hst.
  exists (Client.status_body (negb (status t))).
  rewrite (updateTodo_unfold _ _ _ _ _ _ Hid).
  rewrite bool_decide_eq_false_2
    by (unfold supplies_some, Client.status_body; cbn; intros H; apply H; eauto).
  cbn [update_violations Client.status_body b_title b_priority Datatypes.app].
  cbn zeta. rewrite Hup, Hst. cbn [res db_after docs statusCode json].
  eexists. split_and!; [reflexivity..|].
  intros x Hx. unfold Client.flip in Hx.
  apply list_elem_of_fmap in Hx as (x0 & -> & Hx0).
  destruct (N.eqb_spec (_id x0) i) as [E|E].
  - assert (x0 = t) as ->.
    { pose proof (find_by_id_NoDup i _ x0 Hnd Hx0 E). congruence. }
    cbn [Client.with_status _id]. rewrite Hti, lookup_insert_eq.
    eexists. split; [reflexivity|].
    destruct Hagree as (?&?&?&?&?&?).
    unfold Client.agrees, updated. cbn. done.
  - rewrite lookup_insert_ne by done. by apply Hview.
Qed.

(** X22.  Deleting from the client.  When the server answers 204 the
    client shows exactly its former records minus those with the id, and
    they still agree with the store if they did before.  When the server
    answers anything else the former list is restored as it was and the
    error shown is the server's message. *)
Theorem delete_view
    (id : string) (i : ObjectId) (app : Client.App) (env : Env) (db : Db) :
  castObjectId id = Some i →
  (statusCode (res (deleteTodo castObjectId id env db)) = 204 →
   (∀ x, x ∈ Client.todos
               (Client.handleDelete i
                  (Client.axios (Some (res (deleteTodo castObjectId id env db))))
                  app)
         ↔ x ∈ Client.todos app ∧ _id x ≠ i)
   ∧ ((∀ x, x ∈ Client.todos app →
            ∃ stored, docs db !! _id x = Some stored ∧ Client.agrees x stored) →
      ∀ x, x ∈ Client.todos
                 (Client.handleDelete i
                    (Client.axios
                       (Some (res (deleteTodo castObjectId id env db))))
                    app) →
           ∃ stored,
             docs (db_after (deleteTodo castObjectId id env db)) !! _id x
               = Some stored
             ∧ Client.agrees x stored))
  ∧ (statusCode (res (deleteTodo castObjectId id env db)) ≠ 204 →
     Client.todos
       (Client.handleDelete i
          (Client.axios (Some (res (deleteTodo castObjectId id env db)))) app)
     = Client.todos app
     ∧ Client.error
         (Client.handleDelete i
            (Client.axios (Some (res (deleteTodo castObjectId id env db)))) app)
       ∈ ["Todo not found"; "Server error while deleting todo"]).
Proof.
  intros Hid. rewrite (deleteTodo_unfold _ _ _ _ _ Hid).
  assert (Client.axios (Some (send 204)) = Client.Fulfilled None) as H204
    by reflexivity.
  assert (∀ m, Client.axios (Some (json 404 (response false m JNull)))
               = Client.Failed (Some m)) as H404 by reflexivity.
  assert (∀ m, Client.axios (Some (json 500 (response false m JNull)))
               = Client.Failed (Some m)) as H500 by reflexivity.
  destruct (storage_up env).
  - destruct (docs db !! i) as [d|] eqn:Hd; cbn [res db_after docs].
    + rewrite H204. split; [|done]. intros _.
      cbn [Client.handleDelete Client.todos]. split.
      * intros x. rewrite list_elem_of_filter. tauto.
      * intros Hview x Hx. apply list_elem_of_filter in Hx as [Hne Hx].
        rewrite lookup_delete_ne by done. by apply Hview.
    + rewrite H404. split; [done|]. intros _.
      cbn. split; [done|set_solver].
  - cbn [res]. rewrite H500. split; [done|]. intros _.
    cbn. split; [done|set_solver].
Qed.

(** X23.  Opening an item for editing and saving it unchanged changes
    nothing but updatedAt: for a stored record whose text is trimmed, whose
    title has at least three characters and whose priority is among low,
    medium, high, [handleSave] passes the untouched form on, and the server
    answers 200 with the same record carrying the new updatedAt. *)
Theorem edit_save_unchanged
    (id : string) (d : Todo) (env : Env) (db : Db) :
  castObjectId id = Some (_id d) →
  docs db !! _id d = Some d →
  Js.trim (title d) = title d →
  Js.trim (description d) = description d →
  (3 ≤ String.length (title d))%nat →
  priority_ok (priority d) →
  storage_up env = true →
  Client.handleSave d (Client.editData_of d) true
    = (Some (_id d, Client.editData_of d), false)
  ∧ res (updateTodo castObjectId id
           (Client.form_body (Client.editData_of d)) env db)
    = json 200
        (response true "Todo updated successfully"
           (toJSON
              {| _id := _id d; title := title d;
                 description := description d; status := status d;
                 priority := priority d; createdAt := createdAt d;
                 updatedAt := timestamp_now env |})).
Proof.
  intros Hid Hd Ht Hdesc Hlen Hp Hup.
  assert (Client.form_description (Client.editData_of d) = description d)
    as Hed by (unfold Client.editData_of; cbn; by destruct (description d)).
  split.
  - unfold Client.handleSave. rewrite title_check_spec.
    rewrite bool_decide_eq_false_2; [done|].
    intros Hbad. apply Hbad. unfold title_ok.
    cbn [Client.form_title Client.editData_of]. by rewrite Ht.
  - rewrite (updateTodo_unfold _ _ _ _ _ _ Hid).
    rewrite bool_decide_eq_false_2
      by (unfold supplies_some; cbn; intros H; apply H; eauto).
    assert (update_violations (Client.form_body (Client.editData_of d)) = [])
      as ->.
    { apply update_violations_nil.
      split; cbn [Client.form_body b_title b_priority Client.editData_of
                    Client.form_title Client.form_priority].
      - intros t [= <-]. unfold title_ok. by rewrite Ht.
      - by intros p [= <-]. }
    cbn zeta. rewrite Hup, Hd. cbn [res]. do 3 f_equal.
    unfold updated. cbn [Client.form_body b_title b_description b_status
                           b_priority].
    rewrite Hed. cbn [Client.editData_of Client.form_title Client.form_priority].
    by rewrite Ht, Hdesc.
Qed.

(** X24.  Prepending a created record keeps the list in server order.  If
    the client shows the stored records newest first, the store satisfies
    the invariants up to the reading [now], and the clock has not gone back
    when the creation is served, then after [handleAdd] the client again
    shows exactly the stored records, newest first. *)
Theorem add_keeps_newest_first
    (now : Z) (b : ReqBody) (env : Env) (db : Db) (app : Client.App) :
  store_ok now db →
  now <= date_now env →
  Client.todos app ≡ₚ records db →
  StronglySorted (λ x y, createdAt y <= createdAt x) (Client.todos app) →
  statusCode (res (createTodo b env db)) = 201 →
  ∃ todo,
    Client.axios (Some (res (createTodo b env db)))
      = Client.Fulfilled (Some (toJSON todo))
    ∧ Client.todos (Client.handleAdd (Client.Fulfilled todo) app)
        ≡ₚ records (db_after (createTodo b env db))
    ∧ StronglySorted (λ x y, createdAt y <= createdAt x)
        (Client.todos (Client.handleAdd (Client.Fulfilled todo) app)).
Proof.
  intros Hok Hclock Hview Hsorted H201. rewrite createTodo_unfold in *.
  destruct (create_violations b); [|done].
  cbn zeta in *. destruct (storage_up env); [|done].
  case_bool_decide as Hfresh; [|done]. cbn [andb res db_after] in *.
  eexists. split; [reflexivity|]. cbn [Client.handleAdd Client.todos].
  split.
  - unfold records at 1. cbn [docs].
    rewrite map_to_list_insert by done. cbn. by rewrite Hview.
  - constructor; [done|].
    apply Forall_forall. intros x Hx. cbn [createdAt].
    rewrite Hview in Hx. unfold records in Hx.
    apply list_elem_of_fmap in Hx as ([j d] & -> & Hx).
    apply elem_of_map_to_list in Hx. cbn.
    destruct (Hok _ _ Hx) as (_ & _ & (_ & _ & Hc) & Hu). lia.
Qed.

(** X25.  Saving an edit.  When the server answers the update 200, the
    client replaces its copy by the record the server returned, so if every
    record it showed was the stored one, that is still so afterwards.  When
    the server answers anything else, the list is left as it was and the
    banner shows the server's message. *)
Theorem update_view
    (id : string) (i : ObjectId) (form : Client.Form) (app : Client.App)
    (env : Env) (db : Db) :
  castObjectId id = Some i →
  (statusCode (res (updateTodo castObjectId id (Client.form_body form) env db))
     = 200 →
   ∃ todo,
     Client.axios
       (Some (res (updateTodo castObjectId id (Client.form_body form) env db)))
       = Client.Fulfilled (Some (toJSON todo))
     ∧ ((∀ x, x ∈ Client.todos app → docs db !! _id x = Some x) →
        ∀ x, x ∈ Client.todos
                   (Client.handleUpdate i (Client.Fulfilled todo) app) →
             docs (db_after
                     (updateTodo castObjectId id (Client.form_body form) env db))
               !! _id x = Some x))
  ∧ (statusCode (res (updateTodo castObjectId id (Client.form_body form) env db))
       ≠ 200 →
     ∃ m,
       Client.axios
         (Some (res (updateTodo castObjectId id (Client.form_body form) env db)))
         = Client.Failed (Some m)
       ∧ Client.handleUpdate i (Client.Failed (Some m)) app
         = Client.mkApp (Client.todos app) m).
Proof.
  intros Hid. rewrite (updateTodo_unfold _ _ _ _ _ _ Hid).
  rewrite bool_decide_eq_false_2
    by (unfold supplies_some; cbn; intros H; apply H; eauto).
  destruct (update_violations (Client.form_body form)) as [|e es] eqn:Hv.
  - cbn zeta. destruct (storage_up env).
    + destruct (docs db !! i) as [d|] eqn:Hd.
      * split; [|done]. intros _. eexists. split; [reflexivity|].
        intros Hview x Hx. cbn [db_after docs].
        cbn [Client.handleUpdate Client.todos] in Hx.
        apply list_elem_of_fmap in Hx as (x0 & -> & Hx0).
        destruct (N.eqb_spec (_id x0) i) as [E|E].
        -- pose proof (Hview x0 Hx0) as Hx0'. rewrite E in Hx0'.
           unfold ObjectId in *. rewrite Hd in Hx0'. injection Hx0' as ->.
           cbn [updated _id]. rewrite E. by rewrite lookup_insert_eq.
        -- rewrite lookup_insert_ne by done. by apply Hview.
      * split; [done|]. intros _. eexists. split; reflexivity.
    + split; [done|]. intros _. eexists. split; reflexivity.
  - split; [done|]. intros _.
    exists (Js.join ". " (messages (e :: es))). split; [reflexivity|].
    cbn [Client.handleUpdate]. rewrite message_or_nonempty; [done|].
    rewrite <- Hv. apply violations_message_nonempty. by rewrite Hv.
Qed.

End ClientServer.

(** * The further properties on concrete inputs *)

Lemma milk_db_ok : store_ok 101 milk_db.
Proof.
  intros i d Hd. unfold milk_db in Hd. cbn [docs] in Hd.
  apply lookup_singleton_Some in Hd as [<- <-].
  unfold record_ok, title_ok, priority_ok. cbn.
  split_and!; try done; try lia.
  - vm_compute. lia.
  - unfold Schema.enum_values. set_solver.
Qed.

Lemma create_then_get_witness :
  ∃ todo,
    getTodoById Bson.ofHexString "000000000000000000000000"
      (mkEnv 300 301 true)
      (db_after (createTodo (mkBody (Some "Buy milk") None None None [])
                            (mkEnv 100 101 true) empty_db))
    = mkOutcome
        (json 200 (response true "Todo retrieved successfully" (toJSON todo)))
        (db_after (createTodo (mkBody (Some "Buy milk") None None None [])
                              (mkEnv 100 101 true) empty_db))
        [FindOne 0%N].
Proof.
  destruct (create_then_get Bson.ofHexString
              (mkBody (Some "Buy milk") None None None [])
              (mkEnv 100 101 true) (mkEnv 300 301 true) empty_db
              "000000000000000000000000")
    as (todo & _ & H); [reflexivity..|].
  exists todo. exact H.
Defined.

Lemma delete_removes_one_witness :
  docs (db_after (deleteTodo Bson.ofHexString "000000000000000000000000"
                             (mkEnv 300 301 true) milk_db)) !! 0%N = None
  ∧ res (deleteTodo Bson.ofHexString "000000000000000000000000"
           (mkEnv 400 401 true)
           (db_after (deleteTodo Bson.ofHexString "000000000000000000000000"
                                 (mkEnv 300 301 true) milk_db)))
    = json 404 (response false "Todo not found" JNull).
Proof.
  destruct (delete_removes_one Bson.ofHexString "000000000000000000000000"
              0%N (mkEnv 300 301 true) (mkEnv 400 401 true) milk_db)
    as (_ & Hgone & _ & _ & Hagain & _); [reflexivity..|].
  split; [exact Hgone | exact Hagain].
Defined.

Lemma refused_or_read_keeps_store_witness :
  db_after (router Bson.ofHexString
              (PATCH_todo "000000000000000000000000"
                          (mkBody (Some "ab") None (Some true) None []))
              (mkEnv 300 301 true) milk_db) = milk_db.
Proof.
  apply (refused_or_read_keeps_store Bson.ofHexString).
  left. vm_compute. discriminate.
Defined.

Lemma storage_commands_witness :
  calls (router Bson.ofHexString (GET_todo "42")
           (mkEnv 300 301 true) milk_db) = []
  ∧ length (calls (router Bson.ofHexString
                     (GET_todo "507f1f77bcf86cd799439011")
                     (mkEnv 300 301 true) milk_db)) = 1%nat
  ∧ calls (Raw.updateTodo Bson.ofHexString "000000000000000000000000"
             (mkRawBody None None (Some (Uncastable (JStr "banana"))) None [])
             (mkEnv 300 301 true) milk_db) = [].
Proof.
  destruct (storage_commands Bson.ofHexString (GET_todo "42")
              (mkEnv 300 301 true) milk_db) as (_ & H400 & _ & Hraw).
  destruct (storage_commands Bson.ofHexString
              (GET_todo "507f1f77bcf86cd799439011")
              (mkEnv 300 301 true) milk_db) as (_ & _ & H404 & _).
  destruct (Hraw "000000000000000000000000"
              (mkRawBody None None (Some (Uncastable (JStr "banana"))) None []))
    as (_ & _ & _ & Hcast).
  split_and!.
  - apply H400. reflexivity.
  - apply H404. apply (bool_decide_eq_true_1 (404 ∈ [200; 201; 204; 404])).
    reflexivity.
  - apply Hcast. reflexivity.
Defined.

Lemma storage_down_witness :
  statusCode (res (router Bson.ofHexString
                     (DELETE_todo "000000000000000000000000")
                     (mkEnv 300 301 false) milk_db)) = 500
  ∧ db_after (router Bson.ofHexString
                (DELETE_todo "000000000000000000000000")
                (mkEnv 300 301 false) milk_db) = milk_db
  ∧ db_after (Raw.updateTodo Bson.ofHexString "000000000000000000000000"
                (mkRawBody None None (Some (Castable true)) None [])
                (mkEnv 300 301 false) milk_db) = milk_db.
Proof.
  destruct (storage_down Bson.ofHexString
              (DELETE_todo "000000000000000000000000")
              (mkEnv 300 301 false) milk_db eq_refl) as [[_ Hkeep] Hraw].
  split_and!; [reflexivity | exact Hkeep |].
  apply Hraw.
Defined.

Lemma update_then_get_and_repeat_witness :
  ∃ todo,
    res (getTodoById Bson.ofHexString "000000000000000000000000"
           (mkEnv 400 401 true)
           (db_after (updateTodo Bson.ofHexString "000000000000000000000000"
                        (mkBody (Some "  Buy oat milk ") None None None [])
                        (mkEnv 300 301 true) milk_db)))
    = json 200 (response true "Todo retrieved successfully" (toJSON todo)).
Proof.
  destruct (update_then_get_and_repeat Bson.ofHexString
              "000000000000000000000000"
              (mkBody (Some "  Buy oat milk ") None None None [])
              (mkEnv 300 301 true) (mkEnv 400 401 true) milk_db)
    as (todo & _ & H & _); [reflexivity..|].
  exists todo. exact H.
Defined.

Lemma update_without_validated_fields_witness :
  (∃ d',
     res (Raw.updateTodo Bson.ofHexString "000000000000000000000000"
            (mkRawBody None (Some (Castable " two litres ")) None None [])
            (mkEnv 300 301 true) milk_db)
     = json 200 (response true "Todo updated successfully" (toJSON d'))
     ∧ title d' = "Buy milk")
  ∧ res (Raw.updateTodo Bson.ofHexString "000000000000000000000000"
           (mkRawBody None None (Some (Uncastable (JStr "banana"))) None [])
           (mkEnv 300 301 true) milk_db)
    = json 500 (response false "Server error while updating todo" JNull).
Proof.
  pose proof (update_without_validated_fields Bson.ofHexString
                "000000000000000000000000" 0%N
                (mkRawBody None (Some (Castable " two litres ")) None None [])
                (mkEnv 300 301 true) milk_db milk
                eq_refl eq_refl eq_refl eq_refl
                (or_introl (mk_is_Some _ _ eq_refl)) eq_refl) as [H200 _].
  pose proof (update_without_validated_fields Bson.ofHexString
                "000000000000000000000000" 0%N
                (mkRawBody None None (Some (Uncastable (JStr "banana")))
                           None [])
                (mkEnv 300 301 true) milk_db milk
                eq_refl eq_refl eq_refl eq_refl
                (or_intror (mk_is_Some _ _ eq_refl)) eq_refl) as [_ H500].
  split.
  - destruct H200 as (d' & H & _ & Ht & _); [cbn; eauto|].
    exists d'. split; [exact H | exact Ht].
  - by rewrite (H500 eq_refl).
Defined.

Lemma list_has_no_duplicates_witness :
  ∃ todos,
    body (res (getAllTodos (mkQuery None None) (mkEnv 300 301 true) milk_db))
      = Some (response true (count_message (length todos))
                (JArr (toJSON <$> todos)))
    ∧ NoDup (_id <$> todos).
Proof.
  destruct (list_has_no_duplicates 101 (mkQuery None None)
              (mkEnv 300 301 true) milk_db milk_db_ok eq_refl)
    as (todos & H & Hnd & _).
  exists todos. split; [exact H | exact Hnd].
Defined.

Lemma list_unknown_priority_witness :
  res (getAllTodos (mkQuery None (Some "urgent")) (mkEnv 300 301 true) milk_db)
  = json 200 (response true "0 todo(s) retrieved successfully" (JArr [])).
Proof.
  apply (list_unknown_priority 101 None "urgent" (mkEnv 300 301 true) milk_db);
    [exact milk_db_ok | | reflexivity].
  apply (bool_decide_eq_false_1 (priority_ok "urgent")). reflexivity.
Defined.

Lemma create_then_list_witness :
  ∃ todos,
    body (res (getAllTodos (mkQuery None None) (mkEnv 500 501 true)
                 (db_after (createTodo
                              (mkBody (Some "Walk dog") None None None [])
                              (mkEnv 300 301 true) milk_db))))
      = Some (response true (count_message (length todos))
                (JArr (toJSON <$> todos)))
    ∧ length todos = 2%nat.
Proof.
  destruct (create_then_list (mkBody (Some "Walk dog") None None None [])
              (mkQuery None None) (mkEnv 300 301 true) (mkEnv 500 501 true)
              milk_db) as (todo & todos & _ & H & _ & Hlen); [reflexivity..|].
  exists todos. split; [exact H | exact (Hlen eq_refl)].
Defined.

Lemma errorHandler_status_witness :
  statusCode
    (json 409
       (JObj [("success", JBool false);
              ("message",
               JStr ("Duplicate value for " +:+ Js.dq +:+ "email" +:+ Js.dq
                       +:+ ". Please use a different value."));
              ("data", JNull)])) = 409.
Proof.
  apply (errorHandler_status (Some "production")
           (mkError "ValidationError" (Some "E11000 duplicate key")
                    (Some 418) None (Some 11000) (Some ["email"])
                    (Some []) None None (Some "trace")));
    reflexivity.
Defined.

Lemma errorHandler_body_witness :
  ∃ ms message,
    body (json 500
            (JObj [("success", JBool false);
                   ("message", JStr "Internal Server Error");
                   ("data", JNull);
                   ("stack", JStr "trace")])) = Some (JObj ms)
    ∧ member "message" ms = Some (JStr message)
    ∧ ¬ is_envelope (JObj ms).
Proof.
  destruct (errorHandler_body (Some "development")
              (mkError "Error" None None None None None None None None
                       (Some "trace"))
              (json 500
                 (JObj [("success", JBool false);
                        ("message", JStr "Internal Server Error");
                        ("data", JNull);
                        ("stack", JStr "trace")])) eq_refl)
    as (ms & message & Hb & _ & Hm & _ & _ & Hdev).
  exists ms, message. split_and!; [exact Hb | exact Hm |].
  apply (Hdev "trace"); [discriminate | reflexivity].
Defined.

Lemma errorHandler_agrees_with_createTodo_witness :
  errorHandler (Some "production")
    (mkError "ValidationError" (Some "Todo validation failed") None None None
             None (Some [("title", "Title is required")]) None None None)
  = Some (res (createTodo (mkBody None None None None [])
                          (mkEnv 100 101 true) empty_db)).
Proof.
  apply (errorHandler_agrees_with_createTodo
           (mkBody None None None None []) (mkEnv 100 101 true) empty_db
           _ [("title", "Title is required")] empty_db []);
    [reflexivity | reflexivity | reflexivity | discriminate].
Defined.

Lemma form_and_server_agree_witness :
  (Client.handleSubmit (Client.mkForm " a " EmptyString "medium")
                       EmptyString).1.1 = None
  ∧ ∃ todo,
      Client.axios
        (Some (res (createTodo
                      (Client.form_body
                         (Client.mkForm " Buy milk " EmptyString "high"))
                      (mkEnv 100 101 true) empty_db)))
      = Client.Fulfilled (Some (toJSON todo))
      ∧ title todo = "Buy milk".
Proof.
  split.
  - apply (form_and_server_agree
             (Client.mkForm " a " EmptyString "medium") EmptyString
             (mkEnv 100 101 true) empty_db).
    unfold title_ok. vm_compute. lia.
  - destruct (form_and_server_agree
                (Client.mkForm " Buy milk " EmptyString "high") EmptyString
                (mkEnv 100 101 true) empty_db) as (_ & _ & H).
    destruct (H (Client.mkForm " Buy milk " EmptyString "high"))
      as (_ & _ & todo & Hax & _ & Ht & _); try reflexivity.
    + apply (bool_decide_eq_true_1 (priority_ok "high")). reflexivity.
    + exists todo. split; [exact Hax | exact Ht].
Defined.

Lemma filter_choices_witness :
  ∃ ds,
    Client.axios
      (Some (res (getAllTodos (Client.params (Client.mkFilters EmptyString "medium"))
                              (mkEnv 300 301 true) milk_db)))
    = Client.Fulfilled (Some (JArr (toJSON <$> ds)))
    ∧ milk ∈ ds.
Proof.
  destruct (filter_choices (Client.mkFilters EmptyString "medium")
              (Client.mkApp [] EmptyString) (mkEnv 300 301 true) milk_db)
    as [Hload _].
  destruct (Hload eq_refl) as (ds & H & _ & Hin).
  exists ds. split; [exact H|].
  apply Hin. split_and!; [|by left|by right].
  unfold records. apply list_elem_of_fmap. exists (0%N, milk).
  split; [reflexivity|]. apply elem_of_map_to_list. reflexivity.
Defined.

Lemma toggle_rollback_witness :
  Client.todos
    ((Client.handleToggle (A:=unit) 0%N (Client.mkApp [milk] EmptyString)).2
       (Client.Failed (Some "Todo not found")))
  = [milk].
Proof.
  apply (toggle_rollback (A:=unit) 0%N (Client.mkApp [milk] EmptyString)).
  cbn. apply NoDup_singleton.
Defined.

Lemma toggle_agrees_with_server_witness :
  ∃ b,
    (Client.handleToggle (A:=option JsVal) 0%N
       (Client.mkApp [milk] EmptyString)).1 = Some b
    ∧ statusCode (res (updateTodo Bson.ofHexString "000000000000000000000000"
                         b (mkEnv 300 301 true) milk_db)) = 200.
Proof.
  destruct (toggle_agrees_with_server Bson.ofHexString
              "000000000000000000000000" 0%N
              (Client.mkApp [milk] EmptyString) (mkEnv 300 301 true)
              milk_db milk) as (b & data & Hb & H200 & _).
  - reflexivity.
  - cbn. apply NoDup_singleton.
  - intros x Hx. cbn in Hx. apply list_elem_of_singleton in Hx as ->.
    exists milk. split; [reflexivity|]. by repeat split.
  - cbn. apply list_elem_of_singleton. reflexivity.
  - reflexivity.
  - reflexivity.
  - exists b. split; [exact Hb | exact H200].
Defined.

Lemma delete_view_witness :
  Client.todos
    (Client.handleDelete 7%N
       (Client.axios
          (Some (res (deleteTodo Bson.ofHexString "000000000000000000000007"
                                 (mkEnv 300 301 true) milk_db))))
       (Client.mkApp [milk] EmptyString))
  = [milk].
Proof.
  apply (delete_view Bson.ofHexString "000000000000000000000007" 7%N
           (Client.mkApp [milk] EmptyString) (mkEnv 300 301 true) milk_db).
  - reflexivity.
  - vm_compute. discriminate.
Defined.

Lemma edit_save_unchanged_witness :
  Client.handleSave milk (Client.editData_of milk) true
  = (Some (0%N, Client.editData_of milk), false).
Proof.
  apply (edit_save_unchanged Bson.ofHexString "000000000000000000000000"
           milk (mkEnv 300 301 true) milk_db); try reflexivity.
  - vm_compute. lia.
  - unfold priority_ok, Schema.enum_values. cbn. set_solver.
Defined.

Lemma add_keeps_newest_first_witness :
  ∃ todo,
    Client.todos (Client.handleAdd (Client.Fulfilled todo)
                                   (Client.mkApp [milk] EmptyString))
      ≡ₚ records (db_after (createTodo
                              (mkBody (Some "Walk dog") None None None [])
                              (mkEnv 300 301 true) milk_db)).
Proof.
  destruct (add_keeps_newest_first 101
              (mkBody (Some "Walk dog") None None None [])
              (mkEnv 300 301 true) milk_db
              (Client.mkApp [milk] EmptyString)) as (todo & _ & H & _).
  - exact milk_db_ok.
  - cbn. lia.
  - reflexivity.
  - cbn. repeat constructor.
  - reflexivity.
  - exists todo. exact H.
Defined.

Lemma update_view_witness :
  ∃ m,
    Client.axios
      (Some (res (updateTodo Bson.ofHexString "000000000000000000000007"
                    (Client.form_body (Client.mkForm "Walk dog" EmptyString "low"))
                    (mkEnv 300 301 true) milk_db)))
    = Client.Failed (Some m)
    ∧ Client.handleUpdate 7%N (Client.Failed (Some m))
        (Client.mkApp [milk] EmptyString)
      = Client.mkApp [milk] m.
Proof.
  destruct (update_view Bson.ofHexString "000000000000000000000007" 7%N
              (Client.mkForm "Walk dog" EmptyString "low")
              (Client.mkApp [milk] EmptyString) (mkEnv 300 301 true) milk_db
              eq_refl) as [_ H].
  apply H. vm_compute. discriminate.
Defined.
